(** * DEX arbitrage scanner: price aggregation and fee-adjusted evaluation

    A shallow embedding of the scanner's TypeScript program ([main.ts]) and of
    the two message formatters of its JavaScript twin ([main.js]).

    - JavaScript numbers are IEEE-754 binary64 values; they are modelled by
      the Standard Library's executable specification [spec_float] at
      precision 53 and maximal exponent 1024, so every product, quotient and
      comparison below rounds exactly as the program's does.
    - [async] functions are computations in a state-and-exception monad over
      the module-level [lastCallTime], the clock, the console and the record
      of HTTP posts.  The calls of one [Promise.all] are run one after the
      other, in array order; only a timer advances the clock, and it fires
      on time.
    - The chain, the HTTP endpoint and the language run-time services the
      program only calls (ISO dates, colours, unit formatting) are fields of
      a [Host] record.  The answers of the chain are those of one snapshot:
      they depend on the contract asked, not on the time of the call. *)

From Stdlib Require Import ZArith List String Ascii Bool Lia Permutation.
From Stdlib Require Import SpecFloat DecimalString.
Import ListNotations.

Local Open Scope Z_scope.

(** ** JavaScript numbers *)

Module Num.

Definition prec : Z := 53.
Definition emax : Z := 1024.

Definition number : Type := spec_float.

Definition add (x y : number) : number := SFadd prec emax x y.
Definition sub (x y : number) : number := SFsub prec emax x y.
Definition mul (x y : number) : number := SFmul prec emax x y.
Definition div (x y : number) : number := SFdiv prec emax x y.

(** [x < y], [x > y] and [x <= y]: false as soon as one side is NaN. *)
Definition ltb (x y : number) : bool := SFltb x y.
Definition gtb (x y : number) : bool := SFltb y x.
Definition leb (x y : number) : bool := SFleb x y.

(** The number nearest to the rational [n / d], ties to even: the value of
    a decimal literal, and of [Number(s)] for a decimal string [s]. *)
Definition of_ratio (n : Z) (d : positive) : number :=
  match n with
  | Z0 => S754_zero false
  | Zpos p =>
      let '(q, e, l) := SFdiv_core_binary prec emax (Zpos p) 0 (Zpos d) 0 in
      binary_round_aux prec emax false q e l
  | Zneg p =>
      let '(q, e, l) := SFdiv_core_binary prec emax (Zpos p) 0 (Zpos d) 0 in
      binary_round_aux prec emax true q e l
  end.

Definition of_Z (n : Z) : number := of_ratio n 1.

(** The literals of the program. *)
Definition lit_0_003 : number := of_ratio 3 1000.
Definition lit_0_998 : number := of_ratio 998 1000.
Definition lit_1_002 : number := of_ratio 1002 1000.
Definition lit_100 : number := of_Z 100.
Definition lit_0 : number := of_Z 0.

(** [Number(ethers.formatUnits(value, decimals))]: [formatUnits] prints the
    exact decimal expansion of [value / 10^decimals] and [Number] reads it
    back as the nearest binary64 value. *)
Definition Number_formatUnits (value decimals : Z) : number :=
  of_ratio value (Z.to_pos (10 ^ decimals)).

(** *** [Number.prototype.toFixed] *)

(** For [x = m * 2^e], the integer [n] for which [n / 10^f - x] is as close
    to zero as possible, the larger one when there are two. *)
Definition toFixed_n (m : positive) (e : Z) (f : nat) : Z :=
  let num := Zpos m * 10 ^ Z.of_nat f in
  match e with
  | Zneg p => (2 * num + 2 ^ Zpos p) / 2 ^ (Zpos p + 1)
  | _ => num * 2 ^ e
  end.

(** [m * 2^e >= 10^21]. *)
Definition ge_1e21 (m : positive) (e : Z) : bool :=
  match e with
  | Zneg p => 10 ^ 21 * 2 ^ Zpos p <=? Zpos m
  | _ => 10 ^ 21 <=? Zpos m * 2 ^ e
  end.

Definition digits_of (n : Z) : string :=
  NilZero.string_of_uint (N.to_uint (Z.to_N n)).

Fixpoint zeros (k : nat) : string :=
  match k with
  | O => EmptyString
  | S k' => String "0" (zeros k')
  end.

(** The digits of [n] with a point before the last [f] of them, padded
    with zeros on the left up to [f + 1] digits. *)
Definition fixed_digits (n : Z) (f : nat) : string :=
  let m := digits_of n in
  match f with
  | O => m
  | S _ =>
      let k := String.length m in
      let m := if Nat.leb k f then (zeros (f + 1 - k) ++ m)%string else m in
      let k := String.length m in
      (String.substring 0 (k - f) m ++ "." ++ String.substring (k - f) f m)%string
  end.

(** [x.toFixed(f)]; [big] is [Number::toString] on the values of
    magnitude at least [10^21], which [toFixed] hands over to it. *)
Definition toFixed (big : number -> string) (x : number) (f : nat) : string :=
  match x with
  | S754_nan => "NaN"
  | S754_infinity false => "Infinity"
  | S754_infinity true => "-Infinity"
  | S754_zero _ => fixed_digits 0 f
  | S754_finite s m e =>
      ((if s then "-" else "") ++
       (if ge_1e21 m e then big (S754_finite false m e)
        else fixed_digits (toFixed_n m e f) f))%string
  end.

End Num.

(** ** Shapes of rounded results *)

Module Rounding.

Import Num.

(** The float with mantissa [M] at exponent [E], once the mantissa fits:
    zero for a null mantissa, an infinity past the largest exponent. *)
Definition fin (sx : bool) (M E : Z) : spec_float :=
  if M =? 0 then S754_zero sx
  else if E <=? 971 then S754_finite sx (Z.to_pos M) E
  else S754_infinity sx.

(** The second half of [binary_round_aux]: the renormalisation of a
    mantissa already rounded. *)
Definition pack (sx : bool) (M E : Z) : spec_float :=
  let '(mrs, e) := shr_fexp prec emax M E loc_Exact in
  match shr_m mrs with
  | Z0 => S754_zero sx
  | Zpos m => if e <=? emax - prec then S754_finite sx m e else S754_infinity sx
  | Zneg _ => S754_nan
  end.

(** The mantissa of a finite float fits 53 bits and its exponent is not
    below the least one. *)
Definition weakly_bounded (x : number) : Prop :=
  match x with
  | S754_finite _ m e => Zdigits2 (Zpos m) <= 53 /\ -1074 <= e
  | _ => True
  end.

(** NaN, or a float whose sign bit is clear. *)
Definition nonneg_or_nan (x : number) : Prop :=
  match x with
  | S754_nan => True
  | S754_zero s | S754_infinity s | S754_finite s _ _ => s = false
  end.

End Rounding.

(** ** Computations: state and exceptions *)

Module Eff.

(** A JavaScript completion: a value, or a thrown error (its message). *)
Inductive Result (A : Type) : Type :=
| Ok (a : A)
| Throw (message : string).
Arguments Ok {A} a.
Arguments Throw {A} message.

(** The body of every HTTP post made to the notification endpoint. *)
Record TelegramData := {
  chat_id : string;
  text : string;
  parse_mode : string
}.

Record State := {
  lastCallTime : Z;                         (* [let lastCallTime = 0] *)
  now : Z;                                  (* the clock read by [Date.now()] *)
  console : list string;                    (* lines written by [console.log] *)
  posts : list (string * TelegramData)      (* [axios.post(url, data)] calls *)
}.

Definition M (A : Type) : Type := State -> Result A * State.

Definition ret {A} (a : A) : M A := fun st => (Ok a, st).

Definition bind {A B} (m : M A) (k : A -> M B) : M B :=
  fun st =>
    match m st with
    | (Ok a, st') => k a st'
    | (Throw e, st') => (Throw e, st')
    end.

Definition throw {A} (e : string) : M A := fun st => (Throw e, st).

(** [try { m } catch (error) { handler(error.message) }] *)
Definition try_catch {A} (m : M A) (handler : string -> M A) : M A :=
  fun st =>
    match m st with
    | (Ok a, st') => (Ok a, st')
    | (Throw e, st') => handler e st'
    end.

(** [await] on the answer of an external call. *)
Definition await {A} (r : Result A) : M A := fun st => (r, st).

Definition Date_now : M Z := fun st => (Ok (now st), st).

(** [await new Promise(resolve => setTimeout(resolve, ms))] *)
Definition setTimeout (ms : Z) : M unit :=
  fun st =>
    (Ok tt, {| lastCallTime := lastCallTime st; now := now st + ms;
               console := console st; posts := posts st |}).

Definition get_lastCallTime : M Z := fun st => (Ok (lastCallTime st), st).

Definition set_lastCallTime (t : Z) : M unit :=
  fun st =>
    (Ok tt, {| lastCallTime := t; now := now st;
               console := console st; posts := posts st |}).

Definition console_log (line : string) : M unit :=
  fun st =>
    (Ok tt, {| lastCallTime := lastCallTime st; now := now st;
               console := console st ++ [line]; posts := posts st |}).

Definition record_post (url : string) (data : TelegramData) : M unit :=
  fun st =>
    (Ok tt, {| lastCallTime := lastCallTime st; now := now st;
               console := console st; posts := posts st ++ [(url, data)] |}).

(** [await Promise.all(xs.map(f))], the calls run in array order. *)
Fixpoint Promise_all {A B} (f : A -> M B) (xs : list A) : M (list B) :=
  match xs with
  | [] => ret []
  | x :: xs' =>
      bind (f x) (fun y => bind (Promise_all f xs') (fun ys => ret (y :: ys)))
  end.

(** [xs.forEach(f)] for an [async] or plain callback run in order. *)
Fixpoint forEach {A} (f : A -> M unit) (xs : list A) : M unit :=
  match xs with
  | [] => ret tt
  | x :: xs' => bind (f x) (fun _ => forEach f xs')
  end.

Definition exec {A} (m : M A) (st : State) : State := snd (m st).
Definition eval {A} (m : M A) (st : State) : Result A := fst (m st).

End Eff.

Declare Scope eff_scope.
Delimit Scope eff_scope with eff.
Notation "x <- m ;; k" := (Eff.bind m (fun x => k))
  (at level 61, m at next level, right associativity) : eff_scope.
Notation "' pat <- m ;; k" := (Eff.bind m (fun x => match x with pat => k end))
  (at level 61, pat pattern, m at next level, right associativity) : eff_scope.
Notation "m ;; k" := (Eff.bind m (fun _ => k))
  (at level 61, right associativity) : eff_scope.

(** ** The scanner ([main.ts]) *)

Module Scanner.

Import Num Eff.
Local Open Scope string_scope.
Local Open Scope eff_scope.

(** *** Types ([types.ts]) *)

Inductive TokenPair : Type := WBTC_USDT | ETH_USDT | ETH_DAI.

(** The string a [TokenPair] is. *)
Definition pair_name (symbol : TokenPair) : string :=
  match symbol with
  | WBTC_USDT => "WBTC/USDT"
  | ETH_USDT => "ETH/USDT"
  | ETH_DAI => "ETH/DAI"
  end.

Definition TokenPair_eqb (a b : TokenPair) : bool :=
  String.eqb (pair_name a) (pair_name b).

Inductive LogType : Type := info | success | warning | error | arb | swap.

Inductive Chalk : Type :=
  blue | green | yellow | red | magentaBright | cyan | gray.

(** A [Contract] object is identified by the address it is bound to. *)
Definition Contract : Type := string.

Record DexConfig := {
  pairs : TokenPair -> string;     (* [dex["WBTC/USDT"]], ... *)
  factory : string;
  contract : string -> Contract
}.

(** An object used as a table: its entries in insertion order. *)
Definition DexConfigs : Type := list (string * DexConfig).

Record PriceData := {
  exchange : string;
  symbol : TokenPair;
  bid : number;
  ask : number;
  tradingFee : number;
  timestamp : Z
}.

(** *** What the program calls and does not define *)

Record Host := {
  (* the chain, reached through the provider *)
  getReserves : Contract -> Result (Z * Z * Z);
  token0 : Contract -> Result string;
  feeTo : string -> Result string;
  (* the notification endpoint: status and data of the response *)
  axios_post : string -> TelegramData -> Result (Z * string);
  TELEGRAM_BOT_TOKEN : string;
  TELEGRAM_CHAT_ID : string;
  (* run-time services *)
  toISOString : Z -> string;
  Number_toString : number -> string;
  formatUnits : Z -> Z -> string;
  chalk : Chalk -> string -> string;
  TypeError_undefined : string     (* message of a property read on [undefined] *)
}.

(** *** Configuration *)

Definition RATE_LIMIT_DELAY : Z := 1000.

Definition SYMBOLS : list TokenPair := [WBTC_USDT; ETH_USDT; ETH_DAI].

Definition ZeroAddress : string := "0x0000000000000000000000000000000000000000".

Definition DEXES : DexConfigs :=
  [ ("uniswap",
     {| pairs := fun symbol =>
          match symbol with
          | WBTC_USDT => "0x004375dff511095cc5a197a54140a24efef3a416"
          | ETH_USDT => "0x0d4a11d5eeaac28ec3f61d100daf4d40471f1852"
          | ETH_DAI => "0xa478c2975ab1ea89e8196811f51a7b7ade33eb11"
          end;
        factory := "0x5C69bEe701ef814a2B6a3EDD4B1652CB9cc5aA6f";
        contract := fun addr => addr |});
    ("sushiswap",
     {| pairs := fun symbol =>
          match symbol with
          | WBTC_USDT => "0xcebff86a11d4ed077e8c571f19e9f2c8ae88eafc"
          | ETH_USDT => "0x06da0fd433c1a5d7a4faa01111c044910a184553"
          | ETH_DAI => "0xc3d03e4f041fd4cd388c549ee2a29a9e5075882f"
          end;
        factory := "0xC0AEe478e3658e2610c5F7A4A2E1777cE9e4f2Ac";
        contract := fun addr => addr |}) ].

Definition LOG_COLORS (type : LogType) : Chalk :=
  match type with
  | info => blue
  | success => green
  | warning => yellow
  | error => red
  | arb => magentaBright
  | swap => cyan
  end.

(** [type.toUpperCase()] *)
Definition toUpperCase (type : LogType) : string :=
  match type with
  | info => "INFO"
  | success => "SUCCESS"
  | warning => "WARNING"
  | error => "ERROR"
  | arb => "ARB"
  | swap => "SWAP"
  end.

(** *** Objects and strings *)

Definition Object_keys (dexes : DexConfigs) : list string := map fst dexes.

(** [dexes[dexName]]: [None] is [undefined]. *)
Fixpoint lookup (dexes : DexConfigs) (dexName : string) : option DexConfig :=
  match dexes with
  | [] => None
  | (name, dex) :: rest =>
      if String.eqb name dexName then Some dex else lookup rest dexName
  end.

(** Reading a property of [dex]: a [TypeError] when [dex] is [undefined]. *)
Definition deref (h : Host) (dex : option DexConfig) : M DexConfig :=
  match dex with
  | Some d => ret d
  | None => throw (TypeError_undefined h)
  end.

(** [s.replace(c, by)] for a one-character pattern: the first occurrence. *)
Fixpoint replace (c : ascii) (by_ : string) (s : string) : string :=
  match s with
  | EmptyString => EmptyString
  | String a s' =>
      if Ascii.eqb a c then by_ ++ s' else String a (replace c by_ s')
  end.

(** [s.split(c)] for a one-character separator. *)
Fixpoint split (c : ascii) (s : string) : list string :=
  match s with
  | EmptyString => [EmptyString]
  | String a s' =>
      if Ascii.eqb a c then EmptyString :: split c s'
      else match split c s' with
           | piece :: pieces => String a piece :: pieces
           | [] => [String a EmptyString]
           end
  end.

(** [parts[i]] inside a template: ["undefined"] out of range. *)
Definition at_index (parts : list string) (i : nat) : string :=
  nth i parts "undefined".

(** [parts.filter(Boolean)] on the values of [cond && text]. *)
Fixpoint filter_Boolean (parts : list (option string)) : list string :=
  match parts with
  | [] => []
  | Some s :: rest => s :: filter_Boolean rest
  | None :: rest => filter_Boolean rest
  end.

(** [xs.reduce(f)] on a non-empty array [first :: rest]. *)
Definition reduce {A} (f : A -> A -> A) (first : A) (rest : list A) : A :=
  fold_left f rest first.

(** [results.filter(r => r !== null)] *)
Fixpoint filter_not_null {A} (results : list (option A)) : list A :=
  match results with
  | [] => []
  | Some r :: rest => r :: filter_not_null rest
  | None :: rest => filter_not_null rest
  end.

(** *** Helper functions *)

Definition sendTelegramMessage (h : Host) (message : string) : M unit :=
  try_catch
    (let url :=
       "https://api.telegram.org/bot" ++ TELEGRAM_BOT_TOKEN h ++ "/sendMessage" in
     let data :=
       {| chat_id := TELEGRAM_CHAT_ID h; text := message; parse_mode := "Markdown" |} in
     record_post url data ;;
     response <- await (axios_post h url data) ;;
     let '(status, response_data) := response in
     if negb (status =? 200)%Z
     then console_log ("Failed to send Telegram message: " ++ response_data)
     else ret tt)
    (fun message_ => console_log ("Error sending Telegram message: " ++ message_)).

Definition getFormattedTimestamp (h : Host) : M string :=
  t <- Date_now ;;
  ret (String.substring 0 19 (replace "T" " " (toISOString h t))).

Definition applyRateLimit : M unit :=
  now_ <- Date_now ;;
  last <- get_lastCallTime ;;
  let timeSinceLastCall := now_ - last in
  (if (timeSinceLastCall <? RATE_LIMIT_DELAY)%Z
   then setTimeout (RATE_LIMIT_DELAY - timeSinceLastCall)
   else ret tt) ;;
  now' <- Date_now ;;
  set_lastCallTime now'.

Definition logMessage (h : Host) (type : LogType) (message : string) : M unit :=
  ts <- getFormattedTimestamp h ;;
  let timestamp_ := chalk h gray ("[" ++ ts ++ "]") in
  let prefix := chalk h (LOG_COLORS type) ("[" ++ toUpperCase type ++ "]") in
  console_log (timestamp_ ++ " " ++ prefix ++ " " ++ message).

Definition fetchTradingFee (h : Host) (dexes : DexConfigs)
    (dexName pairAddress : string) : M number :=
  try_catch
    (applyRateLimit ;;
     let dex := lookup dexes dexName in
     let fee := lit_0_003 in
     d <- deref h dex ;;
     let factoryContract := factory d in
     feeTo_ <- await (feeTo h factoryContract) ;;
     let fee := if String.eqb feeTo_ ZeroAddress then lit_0_003 else fee in
     ret fee)
    (fun message_ =>
       logMessage h error
         ("Error fetching fee for " ++ dexName ++ " " ++ pairAddress ++ ": " ++ message_) ;;
       ret lit_0_003).

(** The decimal counts [fetchDexPrice] scales the two reserves by. *)
Definition decimals (symbol : TokenPair) : Z * Z :=
  let decimals0 := 18 in
  let decimals1 := 6 in
  if TokenPair_eqb symbol ETH_DAI then (decimals0, 18)
  else if TokenPair_eqb symbol WBTC_USDT then (8, decimals1)
  else (decimals0, decimals1).

Definition fetchDexPrice (h : Host) (dexes : DexConfigs)
    (dexName : string) (symbol : TokenPair) : M (option PriceData) :=
  try_catch
    (applyRateLimit ;;
     let dex := lookup dexes dexName in
     d <- deref h dex ;;
     let pairAddress := pairs d symbol in
     let contract_ := contract d pairAddress in
     '(reserve0, reserve1, _) <- await (getReserves h contract_) ;;
     token0_ <- await (token0 h contract_) ;;
     let '(decimals0, decimals1) := decimals symbol in
     let reserve0Num := Number_formatUnits reserve0 decimals0 in
     let reserve1Num := Number_formatUnits reserve1 decimals1 in
     let price := div reserve1Num reserve0Num in
     let bid_ := mul price lit_0_998 in
     let ask_ := mul price lit_1_002 in
     tradingFee_ <- fetchTradingFee h dexes dexName pairAddress ;;
     timestamp_ <- Date_now ;;
     ret (Some {| exchange := dexName; symbol := symbol; bid := bid_; ask := ask_;
                  tradingFee := tradingFee_; timestamp := timestamp_ |}))
    (fun message_ =>
       logMessage h error
         ("Error fetching " ++ dexName ++ " " ++ pair_name symbol ++ ": " ++ message_) ;;
       ret None).

(** *** Messages *)

Definition nl : string := String (ascii_of_nat 10) EmptyString.

Definition toFixed2 (h : Host) (x : number) : string :=
  toFixed (Number_toString h) x 2.

Definition formatArbitrageMessage (h : Host) (symbol : TokenPair)
    (lowestAsk highestBid : PriceData)
    (buyFee sellFee profitAfterFees profitPercentage : number) : M string :=
  ts <- getFormattedTimestamp h ;;
  ret ("🚨 *PROFITABLE OPPORTUNITY* 🚨" ++ nl ++
       "*Time:* " ++ ts ++ nl ++
       "*Pair:* " ++ pair_name symbol ++ nl ++
       "*Buy:* " ++ exchange lowestAsk ++ " at $" ++ toFixed2 h (ask lowestAsk) ++
         " (Fee: $" ++ toFixed2 h buyFee ++ ")" ++ nl ++
       "*Sell:* " ++ exchange highestBid ++ " at $" ++ toFixed2 h (bid highestBid) ++
         " (Fee: $" ++ toFixed2 h sellFee ++ ")" ++ nl ++
       "*Total Fees:* $" ++ toFixed2 h (add buyFee sellFee) ++ nl ++
       "*Profit After Fees:* $" ++ toFixed2 h profitAfterFees ++
         " (" ++ toFixed2 h profitPercentage ++ "%)").

Definition formatNonProfitableMessage (h : Host) (symbol : TokenPair)
    (lowestAsk highestBid : PriceData)
    (buyFee sellFee profit profitAfterFees profitPercentage : number)
    (isSwap : bool) : M string :=
  let title := if isSwap then "📊 *SWAP DETECTED*" else "📊 *MARKET UPDATE*" in
  ts <- getFormattedTimestamp h ;;
  ret (title ++ " - " ++ ts ++ nl ++
       "*Pair:* " ++ pair_name symbol ++ nl ++
       "*Best Buy:* " ++ exchange lowestAsk ++ " at $" ++ toFixed2 h (ask lowestAsk) ++
         " (Fee: $" ++ toFixed2 h buyFee ++ ")" ++ nl ++
       "*Best Sell:* " ++ exchange highestBid ++ " at $" ++ toFixed2 h (bid highestBid) ++
         " (Fee: $" ++ toFixed2 h sellFee ++ ")" ++ nl ++
       "*Total Fees:* $" ++ toFixed2 h (add buyFee sellFee) ++ nl ++
       "*Potential Profit Before Fees:* $" ++ toFixed2 h profit ++ nl ++
       "*Profit After Fees:* $" ++ toFixed2 h profitAfterFees ++
         " (" ++ toFixed2 h profitPercentage ++ "%)").

(** *** The scan *)

(** The constants [scanArbitrage] computes from the surviving quotes. *)
Record Evaluation := {
  lowestAsk : PriceData;
  highestBid : PriceData;
  buyPrice : number;
  sellPrice : number;
  profit : number;
  buyFee : number;
  sellFee : number;
  profitAfterFees : number;
  profitPercentage : number
}.

Definition evaluate (first : PriceData) (rest : list PriceData) : Evaluation :=
  let lowestAsk_ :=
    reduce (fun min curr => if ltb (ask curr) (ask min) then curr else min) first rest in
  let highestBid_ :=
    reduce (fun max curr => if gtb (bid curr) (bid max) then curr else max) first rest in
  let buyPrice_ := ask lowestAsk_ in
  let sellPrice_ := bid highestBid_ in
  let profit_ := sub sellPrice_ buyPrice_ in
  let buyFee_ := mul buyPrice_ (tradingFee lowestAsk_) in
  let sellFee_ := mul sellPrice_ (tradingFee highestBid_) in
  let profitAfterFees_ := sub (sub profit_ buyFee_) sellFee_ in
  let profitPercentage_ := mul (div profitAfterFees_ buyPrice_) lit_100 in
  {| lowestAsk := lowestAsk_; highestBid := highestBid_;
     buyPrice := buyPrice_; sellPrice := sellPrice_; profit := profit_;
     buyFee := buyFee_; sellFee := sellFee_;
     profitAfterFees := profitAfterFees_; profitPercentage := profitPercentage_ |}.

(** [profitPercentage > 0] *)
Definition profitable (ev : Evaluation) : bool := gtb (profitPercentage ev) lit_0.

(** The two branches on [profitPercentage > 0]. *)
Definition report (h : Host) (symbol : TokenPair) (ev : Evaluation)
    (triggerEvent : bool) : M unit :=
  if profitable ev then
    message <- formatArbitrageMessage h symbol (lowestAsk ev) (highestBid ev)
                 (buyFee ev) (sellFee ev) (profitAfterFees ev) (profitPercentage ev) ;;
    logMessage h arb ("Opportunity: " ++ pair_name symbol) ;;
    logMessage h arb message ;;
    sendTelegramMessage h message
  else
    message <- formatNonProfitableMessage h symbol (lowestAsk ev) (highestBid ev)
                 (buyFee ev) (sellFee ev) (profit ev) (profitAfterFees ev)
                 (profitPercentage ev) triggerEvent ;;
    logMessage h info ("No opportunity: " ++ pair_name symbol) ;;
    logMessage h info message ;;
    sendTelegramMessage h message.

(** The body of [scanArbitrage] from [validResults] on. *)
Definition evaluateQuotes (h : Host) (symbol : TokenPair)
    (validResults : list PriceData) (triggerEvent : bool) : M unit :=
  match validResults with
  | [] =>
      logMessage h error ("No data for " ++ pair_name symbol) ;;
      sendTelegramMessage h ("⚠️ No data for " ++ pair_name symbol)
  | first :: rest => report h symbol (evaluate first rest) triggerEvent
  end.

(** [Promise.all(Object.keys(DEXES).map(...))] followed by the filter. *)
Definition collect (h : Host) (dexes : DexConfigs) (symbol : TokenPair)
    : M (list PriceData) :=
  results <- Promise_all (fun dexName => fetchDexPrice h dexes dexName symbol)
               (Object_keys dexes) ;;
  ret (filter_not_null results).

Definition scanArbitrage (h : Host) (dexes : DexConfigs) (symbol : TokenPair)
    (triggerEvent : bool) : M unit :=
  try_catch
    (validResults <- collect h dexes symbol ;;
     evaluateQuotes h symbol validResults triggerEvent)
    (fun message_ =>
       logMessage h error
         ("Error in scanArbitrage for " ++ pair_name symbol ++ ": " ++ message_)).

(** *** Swap events *)

Record SwapArgs := {
  sender : string;
  amount0In : Z;
  amount1In : Z;
  amount0Out : Z;
  amount1Out : Z;
  to : string
}.

(** The callback [setupEventListeners] registers for [symbol] on [dexName]. *)
Definition swapListener (h : Host) (dexes : DexConfigs) (symbol : TokenPair)
    (dexName : string) (args : SwapArgs) : M unit :=
  let decimals0 := if TokenPair_eqb symbol WBTC_USDT then 8 else 18 in
  let decimals1 := if TokenPair_eqb symbol ETH_DAI then 18 else 6 in
  let tokens := split "/" (pair_name symbol) in
  let swapDetails :=
    String.concat " | "
      (filter_Boolean
         [ if (0 <? amount0In args)%Z
           then Some ("In: " ++ formatUnits h (amount0In args) decimals0 ++ " " ++
                      at_index tokens 0)
           else None;
           if (0 <? amount1In args)%Z
           then Some ("In: " ++ formatUnits h (amount1In args) decimals1 ++ " " ++
                      at_index tokens 1)
           else None;
           if (0 <? amount0Out args)%Z
           then Some ("Out: " ++ formatUnits h (amount0Out args) decimals0 ++ " " ++
                      at_index tokens 0)
           else None;
           if (0 <? amount1Out args)%Z
           then Some ("Out: " ++ formatUnits h (amount1Out args) decimals1 ++ " " ++
                      at_index tokens 1)
           else None ]) in
  logMessage h swap (dexName ++ " " ++ pair_name symbol ++ " - " ++ swapDetails) ;;
  scanArbitrage h dexes symbol true.

(** One [contract.on("Swap", ...)] registration. *)
Record Listener := {
  listens_on : Contract;
  listener_symbol : TokenPair;
  listener_dexName : string
}.

Definition setupEventListeners (dexes : DexConfigs) : list Listener :=
  flat_map
    (fun symbol =>
       map (fun entry : string * DexConfig =>
              let (dexName, dex) := entry in
              {| listens_on := contract dex (pairs dex symbol);
                 listener_symbol := symbol;
                 listener_dexName := dexName |})
           dexes)
    SYMBOLS.

(** A [Swap] event of the pool [target]: every callback registered on a
    contract bound to [target] runs, in registration order. *)
Definition emitSwap (h : Host) (dexes : DexConfigs) (listeners : list Listener)
    (target : Contract) (args : SwapArgs) : M unit :=
  forEach
    (fun l => swapListener h dexes (listener_symbol l) (listener_dexName l) args)
    (filter (fun l => String.eqb (listens_on l) target) listeners).

(** [main], up to the registration of the listeners it returns. *)
Definition main (h : Host) (dexes : DexConfigs) : M (list Listener) :=
  logMessage h info "Starting DEX Arbitrage Bot with Bun..." ;;
  logMessage h info
    ("Monitoring pairs: " ++ String.concat ", " (map pair_name SYMBOLS)) ;;
  logMessage h info
    ("Supported DEXes: " ++ String.concat ", " (Object_keys dexes)) ;;
  sendTelegramMessage h
    ("🤖 DEX Arbitrage Bot Started" ++ nl ++ "Monitoring " ++
     String.concat ", " (map pair_name SYMBOLS) ++ " across " ++
     String.concat ", " (Object_keys dexes)) ;;
  Promise_all (fun symbol => scanArbitrage h dexes symbol false) SYMBOLS ;;
  ret (setupEventListeners dexes).

End Scanner.

(** ** The formatters of the JavaScript twin ([main.js]) *)

Module JsVariant.

Import Num Eff Scanner.
Local Open Scope string_scope.
Local Open Scope eff_scope.

Definition formatArbitrageMessage (h : Host) (symbol : TokenPair)
    (lowestAsk highestBid : PriceData)
    (buyFee sellFee profitAfterFees profitPercentage : number) : M string :=
  ts <- getFormattedTimestamp h ;;
  ret ("🚨 *PROFITABLE OPPORTUNITY* 🚨" ++ nl ++
       "*Time:* " ++ ts ++ nl ++
       "*Pair:* " ++ pair_name symbol ++ nl ++
       "*Buy:* " ++ exchange lowestAsk ++ " at $" ++ toFixed2 h (ask lowestAsk) ++
         " (Fee: $" ++ toFixed2 h buyFee ++ ")" ++ nl ++
       "*Sell:* " ++ exchange highestBid ++ " at $" ++ toFixed2 h (ask highestBid) ++
         " (Fee: $" ++ toFixed2 h sellFee ++ ")" ++ nl ++
       "*Total Fees:* $" ++ toFixed2 h (add buyFee sellFee) ++ nl ++
       "*Profit After Fees:* $" ++ toFixed2 h profitAfterFees ++
         " (" ++ toFixed2 h profitPercentage ++ "%)").

Definition formatNonProfitableMessage (h : Host) (symbol : TokenPair)
    (lowestAsk highestBid : PriceData)
    (buyFee sellFee profit profitAfterFees profitPercentage : number)
    (isSwap : bool) : M string :=
  let title := if isSwap then "📊 *SWAP DETECTED*" else "📊 *MARKET UPDATE*" in
  ts <- getFormattedTimestamp h ;;
  ret (title ++ " - " ++ ts ++ nl ++
       "*Pair:* " ++ pair_name symbol ++ nl ++
       "*Best Buy:* " ++ exchange lowestAsk ++ " at $" ++ toFixed2 h (ask lowestAsk) ++
         " (Fee: $" ++ toFixed2 h buyFee ++ ")" ++ nl ++
       "*Best Sell:* " ++ exchange highestBid ++ " at $" ++ toFixed2 h (ask highestBid) ++
         " (Fee: $" ++ toFixed2 h sellFee ++ ")" ++ nl ++
       "*Total Fees:* $" ++ toFixed2 h (add buyFee sellFee) ++ nl ++
       "*Potential Profit Before Fees:* $" ++ toFixed2 h profit ++ nl ++
       "*Profit After Fees:* $" ++ toFixed2 h profitAfterFees ++
         " (" ++ toFixed2 h profitPercentage ++ "%)").

End JsVariant.

(** ** Vocabulary of the properties *)

Module Spec.

Import Num Eff Scanner.
Local Open Scope string_scope.

(** The limiter call made on behalf of [source]: [fetchDexPrice] and
    [fetchTradingFee] call [applyRateLimit()], which takes no argument. *)
Definition throttle (source : string) : M unit := applyRateLimit.

(** The time of the last call the limiter holds for [source]: the one
    module-level variable, whatever the source. *)
Definition last_call_time (st : State) (source : string) : Z := lastCallTime st.

(** [dt] milliseconds pass. *)
Definition elapse (dt : Z) (st : State) : State := exec (setTimeout dt) st.

(** What the chain answers to the two reads [fetchDexPrice] makes for
    [symbol] on [dexName], when both succeed. *)
Definition raw_reserves (h : Host) (dexes : DexConfigs) (dexName : string)
    (symbol : TokenPair) : option (Z * Z) :=
  match lookup dexes dexName with
  | None => None
  | Some d =>
      match getReserves h (contract d (pairs d symbol)),
            token0 h (contract d (pairs d symbol)) with
      | Ok (reserve0, reserve1, _), Ok _ => Some (reserve0, reserve1)
      | _, _ => None
      end
  end.

Definition fetch_succeeds (h : Host) (dexes : DexConfigs) (symbol : TokenPair)
    (dexName : string) : bool :=
  match raw_reserves h dexes dexName symbol with
  | Some _ => true
  | None => false
  end.

(** The mid price of a pool: the second reserve over the first, each
    scaled by its decimal count. *)
Definition mid_price (symbol : TokenPair) (reserve0 reserve1 : Z) : number :=
  div (Number_formatUnits reserve1 (snd (decimals symbol)))
      (Number_formatUnits reserve0 (fst (decimals symbol))).

(** The quote [fetchDexPrice] builds from the two reserves at time [t]. *)
Definition quote_of (dexName : string) (symbol : TokenPair)
    (reserve0 reserve1 : Z) (t : Z) : PriceData :=
  {| exchange := dexName; symbol := symbol;
     bid := mul (mid_price symbol reserve0 reserve1) lit_0_998;
     ask := mul (mid_price symbol reserve0 reserve1) lit_1_002;
     tradingFee := lit_0_003; timestamp := t |}.

(** The two reserves by token rather than by slot.  A pool holds its tokens
    as [token0] and [token1], and [getReserves()] answers their reserves in
    that order: the reserve of the pair's base token is [reserve0] when
    [token0()] is the base token, and [reserve1] when it is not. *)
Definition baseReserve (base token0_ : string) (reserve0 reserve1 : Z) : Z :=
  if String.eqb token0_ base then reserve0 else reserve1.

Definition quoteReserve (base token0_ : string) (reserve0 reserve1 : Z) : Z :=
  if String.eqb token0_ base then reserve1 else reserve0.

(** The mid price by token: the quote reserve over the base reserve, each
    scaled by the decimal count configured for its own token (the first
    count of [decimals] is the base token's, the second the quote
    token's). *)
Definition mid_by_token (symbol : TokenPair) (base token0_ : string)
    (reserve0 reserve1 : Z) : number :=
  div (Number_formatUnits (quoteReserve base token0_ reserve0 reserve1)
         (snd (decimals symbol)))
      (Number_formatUnits (baseReserve base token0_ reserve0 reserve1)
         (fst (decimals symbol))).

Definition telegram_url (h : Host) : string :=
  "https://api.telegram.org/bot" ++ TELEGRAM_BOT_TOKEN h ++ "/sendMessage".

(** The post that carries [message]. *)
Definition post_of (h : Host) (message : string) : string * TelegramData :=
  (telegram_url h,
   {| chat_id := TELEGRAM_CHAT_ID h; text := message; parse_mode := "Markdown" |}).

Definition posted_texts (st : State) : list string :=
  map (fun p => text (snd p)) (posts st).

(** The callback of the two [reduce] calls: [curr] replaces the value kept
    so far only when it is strictly better. *)
Definition keep_better {A} (better : A -> A -> bool) (acc curr : A) : A :=
  if better curr acc then curr else acc.

(** [q] is the quote at position [length before] of [before ++ q :: after]
    that [reduce] keeps for the lowest ask: strictly below every earlier
    ask, and no later ask strictly below it. *)
Definition first_lowest_ask (before : list PriceData) (q : PriceData)
    (after : list PriceData) : Prop :=
  (forall p, In p before -> ltb (ask q) (ask p) = true) /\
  (forall p, In p after -> ltb (ask p) (ask q) = false).

Definition first_highest_bid (before : list PriceData) (q : PriceData)
    (after : list PriceData) : Prop :=
  (forall p, In p before -> gtb (bid q) (bid p) = true) /\
  (forall p, In p after -> gtb (bid p) (bid q) = false).

End Spec.

(** ** Concrete inputs *)

Module Examples.

Import Num Eff Scanner.
Local Open Scope string_scope.

Definition quoteA : PriceData :=
  {| exchange := "A"; symbol := ETH_USDT; bid := of_Z 99; ask := of_Z 100;
     tradingFee := lit_0_003; timestamp := 0 |}.

Definition quoteB : PriceData :=
  {| exchange := "B"; symbol := ETH_USDT; bid := of_Z 102; ask := of_Z 101;
     tradingFee := lit_0_003; timestamp := 0 |}.

(** One quote with both the lowest ask and the highest bid. *)
Definition bestC : PriceData :=
  {| exchange := "C"; symbol := ETH_USDT; bid := of_Z 99; ask := of_Z 100;
     tradingFee := lit_0_003; timestamp := 0 |}.

Definition otherD : PriceData :=
  {| exchange := "D"; symbol := ETH_USDT; bid := of_Z 98; ask := of_Z 101;
     tradingFee := lit_0_003; timestamp := 0 |}.

Definition uniswap_ETH_USDT : string := "0x0d4a11d5eeaac28ec3f61d100daf4d40471f1852".

(** A chain on which the uniswap ETH/USDT pool holds 1000 ETH (18 decimals)
    and 2000000 USDT (6 decimals), every other pool 1000 and 2100000, and
    whose factories revert on [feeTo()]. *)
Definition host : Host :=
  {| getReserves := fun c =>
       if String.eqb c uniswap_ETH_USDT
       then Ok (1000000000000000000000, 2000000000000, 0)
       else Ok (1000000000000000000000, 2100000000000, 0);
     token0 := fun _ => Ok "0xC02aaA39b223FE8D0A0e5C4F27eAD9083C756Cc2";
     feeTo := fun _ => Throw "missing revert data";
     axios_post := fun _ _ => Ok (200, "[object Object]");
     TELEGRAM_BOT_TOKEN := "TOKEN";
     TELEGRAM_CHAT_ID := "CHAT";
     toISOString := fun _ => "2025-01-01T00:00:00.000Z";
     Number_toString := fun _ => "1e+21";
     formatUnits := fun value _ => digits_of value;
     chalk := fun _ s => s;
     TypeError_undefined := "undefined is not an object" |}.

(** The same chain with every pool at the same price: no opportunity. *)
Definition flat_host : Host :=
  {| getReserves := fun _ => Ok (1000000000000000000000, 2000000000000, 0);
     token0 := token0 host;
     feeTo := feeTo host;
     axios_post := axios_post host;
     TELEGRAM_BOT_TOKEN := TELEGRAM_BOT_TOKEN host;
     TELEGRAM_CHAT_ID := TELEGRAM_CHAT_ID host;
     toISOString := toISOString host;
     Number_toString := Number_toString host;
     formatUnits := formatUnits host;
     chalk := chalk host;
     TypeError_undefined := TypeError_undefined host |}.

(** A chain on which the two ETH/USDT pools hold the same [2^30] ETH and
    USDT reserves 150 base units apart: the two mid prices are neighbouring
    doubles. *)
Definition tie_host : Host :=
  {| getReserves := fun c =>
       if String.eqb c uniswap_ETH_USDT
       then Ok (1073741824000000000000000000, 2195802030080000000, 0)
       else Ok (1073741824000000000000000000, 2195802030080000150, 0);
     token0 := token0 host;
     feeTo := feeTo host;
     axios_post := axios_post host;
     TELEGRAM_BOT_TOKEN := TELEGRAM_BOT_TOKEN host;
     TELEGRAM_CHAT_ID := TELEGRAM_CHAT_ID host;
     toISOString := toISOString host;
     Number_toString := Number_toString host;
     formatUnits := formatUnits host;
     chalk := chalk host;
     TypeError_undefined := TypeError_undefined host |}.

(** Three sources; the pools of the third do not answer. *)
Definition three_dexes : DexConfigs :=
  (DEXES ++
   [ ("thirdswap",
      {| pairs := fun _ => "0x0000000000000000000000000000000000000003";
         factory := "0x00000000000000000000000000000000000000f3";
         contract := fun addr => addr |}) ])%list.

Definition partial_host : Host :=
  {| getReserves := fun c =>
       if String.eqb c "0x0000000000000000000000000000000000000003"
       then Throw "could not detect network"
       else getReserves host c;
     token0 := token0 host;
     feeTo := feeTo host;
     axios_post := axios_post host;
     TELEGRAM_BOT_TOKEN := TELEGRAM_BOT_TOKEN host;
     TELEGRAM_CHAT_ID := TELEGRAM_CHAT_ID host;
     toISOString := toISOString host;
     Number_toString := Number_toString host;
     formatUnits := formatUnits host;
     chalk := chalk host;
     TypeError_undefined := TypeError_undefined host |}.

Definition WETH : string := "0xC02aaA39b223FE8D0A0e5C4F27eAD9083C756Cc2".

Definition DAI : string := "0x6B175474E89094C44Da98b954EedeAC495271d0F".

Definition uniswap_ETH_DAI : string := "0xa478c2975ab1ea89e8196811f51a7b7ade33eb11".

(** A chain on which the uniswap ETH/DAI pool has DAI as its [token0] (a
    pair contract orders its two tokens by address, and the address of DAI
    is the lower one) and holds 2000000 DAI and 1000 ETH, 18 decimals
    each: one ETH is worth 2000 DAI. *)
Definition dai_first_host : Host :=
  {| getReserves := fun c =>
       if String.eqb c uniswap_ETH_DAI
       then Ok (2000000000000000000000000, 1000000000000000000000, 0)
       else getReserves host c;
     token0 := fun c => if String.eqb c uniswap_ETH_DAI then Ok DAI else Ok WETH;
     feeTo := feeTo host;
     axios_post := axios_post host;
     TELEGRAM_BOT_TOKEN := TELEGRAM_BOT_TOKEN host;
     TELEGRAM_CHAT_ID := TELEGRAM_CHAT_ID host;
     toISOString := toISOString host;
     Number_toString := Number_toString host;
     formatUnits := formatUnits host;
     chalk := chalk host;
     TypeError_undefined := TypeError_undefined host |}.

(** The state of a process that has not called the limiter yet. *)
Definition start : State :=
  {| lastCallTime := 0; now := 1735689600000; console := []; posts := [] |}.

Definition swap_args : SwapArgs :=
  {| sender := "0x7a250d5630B4cF539739dF2C5dAcb4c659F2488D";
     amount0In := 1000000000000000000; amount1In := 0; amount0Out := 0;
     amount1Out := 2000000000;
     to := "0x7a250d5630B4cF539739dF2C5dAcb4c659F2488D" |}.

End Examples.

(** ** Vocabulary of the further properties *)

Module Behaviour.

Import Num Eff Scanner.
Local Open Scope string_scope.

(** NaN, a zero of either sign, or a float whose sign bit is set. *)
Definition nonpos_or_nan (x : number) : Prop :=
  match x with
  | S754_nan | S754_zero _ => True
  | S754_infinity s | S754_finite s _ _ => s = true
  end.

(** A float other than NaN whose sign bit is [sx]. *)
Definition signed (sx : bool) (x : number) : Prop :=
  match x with
  | S754_nan => False
  | S754_zero s | S754_infinity s | S754_finite s _ _ => s = sx
  end.

(** The mantissa fits 53 bits, the exponent is not below the least one, and
    the mantissa is normal above it: the shape of every rounded result. *)
Definition canonical (M E : Z) : Prop :=
  0 <= M < 2 ^ 53 /\ -1074 <= E /\ (E = -1074 \/ 2 ^ 52 <= M).

(** The chain answers with reserves that are not negative, as the
    [uint112] of the pair contract are. *)
Definition unsigned_reserves (h : Host) : Prop :=
  forall c reserve0 reserve1 blockTimestampLast,
    getReserves h c = Ok (reserve0, reserve1, blockTimestampLast) ->
    0 <= reserve0 /\ 0 <= reserve1.

(** The clock has not gone back and the time the limiter holds is not in
    the future. *)
Definition limiter_sound (st : State) : Prop := lastCallTime st <= now st.

(** The line [logMessage(type, message)] writes when the clock shows [t]. *)
Definition log_line (h : Host) (t : Z) (type : LogType) (message : string) : string :=
  chalk h gray ("[" ++ String.substring 0 19 (replace "T" " " (toISOString h t)) ++ "]")
  ++ " " ++ chalk h (LOG_COLORS type) ("[" ++ toUpperCase type ++ "]")
  ++ " " ++ message.

(** The time at which a limiter call made in [st] completes: at once when
    [RATE_LIMIT_DELAY] has passed since the last call, and
    [RATE_LIMIT_DELAY] after that call otherwise. *)
Definition next_slot (st : State) : Z :=
  Z.max (now st) (lastCallTime st + RATE_LIMIT_DELAY).

(** The error, if any, that the fee lookup of [dexName] runs into. *)
Definition fee_lookup_error (h : Host) (dexes : DexConfigs) (dexName : string)
    : option string :=
  match lookup dexes dexName with
  | None => Some (TypeError_undefined h)
  | Some d =>
      match feeTo h (factory d) with
      | Ok _ => None
      | Throw e => Some e
      end
  end.

(** The error, if any, that the reads of the pool of [symbol] on [dexName]
    run into. *)
Definition pool_read_error (h : Host) (dexes : DexConfigs) (dexName : string)
    (symbol : TokenPair) : option string :=
  match lookup dexes dexName with
  | None => Some (TypeError_undefined h)
  | Some d =>
      match getReserves h (contract d (pairs d symbol)) with
      | Throw e => Some e
      | Ok _ =>
          match token0 h (contract d (pairs d symbol)) with
          | Throw e => Some e
          | Ok _ => None
          end
      end
  end.

(** The three kinds of message a scan sends. *)
Definition scan_message (symbol : TokenPair) (triggerEvent : bool)
    (message : string) : Prop :=
  message = "⚠️ No data for " ++ pair_name symbol \/
  (exists rest, message = "🚨 *PROFITABLE OPPORTUNITY* 🚨" ++ rest) \/
  (exists rest,
     message = (if triggerEvent then "📊 *SWAP DETECTED*" else "📊 *MARKET UPDATE*")
               ++ rest).

(** Time has not gone back from [st] to [st'], and the limiter's time is
    not in the future in [st'] if it was not in [st]. *)
Definition clock_step (st st' : State) : Prop :=
  now st <= now st' /\ (limiter_sound st -> limiter_sound st').

(** The message [main] sends first. *)
Definition start_message (dexes : DexConfigs) : string :=
  "🤖 DEX Arbitrage Bot Started" ++ nl ++ "Monitoring " ++
  String.concat ", " (map pair_name SYMBOLS) ++ " across " ++
  String.concat ", " (Object_keys dexes).

(** No character of [s] is [c]. *)
Fixpoint lacks (c : ascii) (s : string) : Prop :=
  match s with
  | EmptyString => True
  | String a s' => a <> c /\ lacks c s'
  end.

End Behaviour.

(** * Properties *)

Import Num Rounding Eff Scanner Spec.

(** * Rounding to binary64 *)

(** ** Binary digits *)

Lemma digits2_pos_bounds (p : positive) :
  2 ^ (Zpos (digits2_pos p) - 1) <= Zpos p < 2 ^ Zpos (digits2_pos p).
Proof.
  induction p as [p IH|p IH|]; cbn [digits2_pos].
  - rewrite Pos2Z.inj_succ. change (Zpos p~1) with (2 * Zpos p + 1).
    replace (Z.succ (Zpos (digits2_pos p)) - 1) with (Z.succ (Zpos (digits2_pos p) - 1)) by lia.
    rewrite !Z.pow_succ_r by lia.
    generalize dependent (2 ^ (Zpos (digits2_pos p) - 1)).
    generalize (2 ^ Zpos (digits2_pos p)). intros; lia.
  - rewrite Pos2Z.inj_succ. change (Zpos p~0) with (2 * Zpos p).
    replace (Z.succ (Zpos (digits2_pos p)) - 1) with (Z.succ (Zpos (digits2_pos p) - 1)) by lia.
    rewrite !Z.pow_succ_r by lia.
    generalize dependent (2 ^ (Zpos (digits2_pos p) - 1)).
    generalize (2 ^ Zpos (digits2_pos p)). intros; lia.
  - cbn. lia.
Qed.

Lemma Zdigits2_bounds (m : Z) :
  0 < m -> 2 ^ (Zdigits2 m - 1) <= m < 2 ^ Zdigits2 m.
Proof. destruct m as [|p|p]; try lia. intros _. apply digits2_pos_bounds. Qed.

Lemma Zdigits2_pos (m : Z) : 0 < m -> 0 < Zdigits2 m.
Proof. destruct m; cbn; lia. Qed.

Lemma Zdigits2_le (m k : Z) : 0 < m -> m < 2 ^ k -> Zdigits2 m <= k.
Proof.
  intros Hm Hk. destruct (Zdigits2_bounds m Hm) as [Hlo _].
  destruct (Z.le_gt_cases (Zdigits2 m) k) as [|Hgt]; [assumption|exfalso].
  assert (0 <= k).
  { destruct (Z.le_gt_cases 0 k); [assumption|]. rewrite Z.pow_neg_r in Hk by lia. lia. }
  assert (2 ^ k <= 2 ^ (Zdigits2 m - 1)) by (apply Z.pow_le_mono_r; lia).
  lia.
Qed.

Lemma Zdigits2_ge (m k : Z) : 0 <= k -> 2 ^ k <= m -> k + 1 <= Zdigits2 m.
Proof.
  intros Hk Hm.
  assert (0 < m) by (pose proof (Z.pow_pos_nonneg 2 k); lia).
  destruct (Zdigits2_bounds m H) as [_ Hhi].
  destruct (Z.le_gt_cases (k + 1) (Zdigits2 m)) as [|Hlt]; [assumption|exfalso].
  assert (2 ^ Zdigits2 m <= 2 ^ k) by (apply Z.pow_le_mono_r; lia).
  lia.
Qed.

(** ** Shifting right *)

Lemma iter_pos_nat {A} (f : A -> A) (p : positive) (x : A) :
  iter_pos f p x = Nat.iter (Pos.to_nat p) f x.
Proof.
  revert x. induction p as [p IH|p IH|]; intros x; cbn [iter_pos].
  - rewrite !IH, Pos2Nat.inj_xI.
    replace (S (2 * Pos.to_nat p)) with (Pos.to_nat p + (Pos.to_nat p + 1))%nat by lia.
    rewrite !Nat.iter_add. reflexivity.
  - rewrite !IH, Pos2Nat.inj_xO.
    replace (2 * Pos.to_nat p)%nat with (Pos.to_nat p + Pos.to_nat p)%nat by lia.
    now rewrite Nat.iter_add.
  - reflexivity.
Qed.

Lemma shr_1_m (mrs : shr_record) :
  0 <= shr_m mrs -> shr_m (shr_1 mrs) = shr_m mrs / 2.
Proof.
  destruct mrs as [m r s]. cbn [shr_m]. intros Hm.
  destruct m as [|[p|p|]|p]; cbn [shr_1 shr_m]; try lia; try reflexivity.
  - change (Zpos p~1) with (2 * Zpos p + 1). apply Z.div_unique with 1; lia.
  - change (Zpos p~0) with (2 * Zpos p). apply Z.div_unique with 0; lia.
Qed.

Lemma shr_iter_m (n : nat) (mrs : shr_record) :
  0 <= shr_m mrs ->
  shr_m (Nat.iter n shr_1 mrs) = shr_m mrs / 2 ^ Z.of_nat n.
Proof.
  intros Hm. induction n as [|n IH].
  - cbn. now rewrite Z.div_1_r.
  - rewrite Nat.iter_succ, shr_1_m.
    + rewrite IH, Nat2Z.inj_succ, Z.pow_succ_r by lia.
      rewrite Z.div_div by (try apply Z.pow_pos_nonneg; lia).
      f_equal. lia.
    + rewrite IH. apply Z.div_pos; [assumption|apply Z.pow_pos_nonneg; lia].
Qed.

Lemma shr_m_spec (mrs : shr_record) (e n : Z) :
  0 <= shr_m mrs ->
  shr_m (fst (shr mrs e n)) = shr_m mrs / 2 ^ Z.max 0 n /\
  snd (shr mrs e n) = e + Z.max 0 n.
Proof.
  intros Hm. destruct n as [|p|p]; cbn [shr fst snd].
  - cbn. rewrite Z.div_1_r. split; [reflexivity|lia].
  - rewrite iter_pos_nat, shr_iter_m by assumption.
    rewrite positive_nat_Z. replace (Z.max 0 (Zpos p)) with (Zpos p) by lia. auto.
  - cbn. rewrite Z.div_1_r. split; [reflexivity|lia].
Qed.

Lemma shr_m_of_loc (m : Z) (l : location) : shr_m (shr_record_of_loc m l) = m.
Proof. destruct l as [|[]]; reflexivity. Qed.

Lemma round_nearest_even_bounds (m : Z) (l : location) :
  m <= round_nearest_even m l <= m + 1.
Proof.
  destruct l as [|[]]; cbn [round_nearest_even]; try lia.
  destruct (Z.even m); lia.
Qed.

(** ** The two halves of the rounding *)

Lemma fexp_unfold (k : Z) : fexp prec emax k = Z.max (k - 53) (-1074).
Proof. reflexivity. Qed.

Lemma pow2_pos (k : Z) : 0 <= k -> 0 < 2 ^ k.
Proof. intros. apply Z.pow_pos_nonneg; lia. Qed.

Lemma pow2_split (a b : Z) : 0 <= a -> 0 <= b -> 2 ^ (a + b) = 2 ^ a * 2 ^ b.
Proof. intros. now apply Z.pow_add_r. Qed.

Lemma binary_round_aux_pack (sx : bool) (m e : Z) (l : location) :
  0 <= m ->
  exists M,
    m / 2 ^ Z.max 0 (fexp prec emax (Zdigits2 m + e) - e) <= M <=
      m / 2 ^ Z.max 0 (fexp prec emax (Zdigits2 m + e) - e) + 1 /\
    binary_round_aux prec emax sx m e l =
      pack sx M (e + Z.max 0 (fexp prec emax (Zdigits2 m + e) - e)).
Proof.
  intros Hm. unfold binary_round_aux. unfold shr_fexp at 1.
  pose proof (shr_m_spec (shr_record_of_loc m l) e
                (fexp prec emax (Zdigits2 m + e) - e)) as H.
  rewrite shr_m_of_loc in H. specialize (H Hm).
  destruct (shr (shr_record_of_loc m l) e (fexp prec emax (Zdigits2 m + e) - e))
    as [mrs' e'].
  cbn [fst snd] in H. destruct H as [H1 H2].
  exists (round_nearest_even (shr_m mrs') (loc_of_shr_record mrs')).
  split.
  - rewrite <- H1. apply round_nearest_even_bounds.
  - rewrite <- H2. reflexivity.
Qed.

Lemma pack_small (sx : bool) (M E : Z) :
  0 <= M < 2 ^ 53 -> -1074 <= E -> pack sx M E = fin sx M E.
Proof.
  intros HM HE. unfold pack, shr_fexp.
  assert (Hn : fexp prec emax (Zdigits2 M + E) - E <= 0).
  { rewrite fexp_unfold.
    destruct (Z.eq_dec M 0) as [->|HM0]; [cbn; lia|].
    assert (Zdigits2 M <= 53) by (apply Zdigits2_le; lia). lia. }
  pose proof (shr_m_spec (shr_record_of_loc M loc_Exact) E
                (fexp prec emax (Zdigits2 M + E) - E)) as H.
  rewrite shr_m_of_loc in H. specialize (H (proj1 HM)).
  destruct (shr (shr_record_of_loc M loc_Exact) E (fexp prec emax (Zdigits2 M + E) - E))
    as [mrs e'].
  cbn [fst snd] in H. destruct H as [H1 H2].
  replace (Z.max 0 (fexp prec emax (Zdigits2 M + E) - E)) with 0 in H1, H2 by lia.
  rewrite Z.pow_0_r, Z.div_1_r in H1. rewrite Z.add_0_r in H2. subst e'. rewrite H1.
  unfold fin. destruct M as [|p|p]; [reflexivity| |lia].
  cbn [Z.eqb Z.to_pos]. reflexivity.
Qed.

Lemma pack_carry (sx : bool) (E : Z) :
  -1074 <= E -> pack sx (2 ^ 53) E = fin sx (2 ^ 52) (E + 1).
Proof.
  intros HE. unfold pack, shr_fexp.
  assert (Hn : fexp prec emax (Zdigits2 (2 ^ 53) + E) - E = 1).
  { rewrite fexp_unfold. change (Zdigits2 (2 ^ 53)) with 54. lia. }
  rewrite Hn. cbn [shr shr_record_of_loc iter_pos].
  change (shr_m (shr_1 {| shr_m := 2 ^ 53; shr_r := false; shr_s := false |}))
    with (2 ^ 52).
  unfold fin. change (2 ^ 52 =? 0) with false. cbv iota.
  change (emax - prec) with 971. reflexivity.
Qed.

(** What [binary_round_aux] returns on a non-negative mantissa: a float
    [fin sx M' E'] whose mantissa fits 53 bits, at an exponent not below the
    one the rounding shifts to, and within one unit of the shifted value. *)
Lemma binary_round_aux_fin (sx : bool) (m e : Z) (l : location) :
  0 <= m ->
  let n := Z.max 0 (fexp prec emax (Zdigits2 m + e) - e) in
  exists M' E',
    binary_round_aux prec emax sx m e l = fin sx M' E' /\
    0 <= M' < 2 ^ 53 /\ -1074 <= E' /\ e + n <= E' /\
    m / 2 ^ n <= M' * 2 ^ (E' - (e + n)) <= m / 2 ^ n + 1 /\
    (0 < m -> e <= fexp prec emax (Zdigits2 m + e) -> E' = -1074 \/ 2 ^ 52 <= M').
Proof.
  intros Hm n.
  destruct (binary_round_aux_pack sx m e l Hm) as (M & HM & E).
  fold n in HM, E.
  assert (Hn0 : 0 <= n) by (subst n; lia).
  assert (HE : -1074 <= e + n) by (subst n; rewrite fexp_unfold; lia).
  assert (HF : m / 2 ^ n < 2 ^ 53).
  { destruct (Z.eq_dec m 0) as [->|Hm0]; [rewrite Z.div_0_l; [lia|]; pose proof (pow2_pos n); lia|].
    apply Z.div_lt_upper_bound; [apply pow2_pos; lia|].
    destruct (Zdigits2_bounds m ltac:(lia)) as [_ Hhi].
    rewrite <- pow2_split by lia.
    assert (2 ^ Zdigits2 m <= 2 ^ (n + 53)).
    { apply Z.pow_le_mono_r; [lia|]. subst n. rewrite fexp_unfold. lia. }
    lia. }
  assert (HF0 : 0 <= m / 2 ^ n) by (apply Z.div_pos; [lia|apply pow2_pos; lia]).
  assert (Hcanon : 0 < m -> e <= fexp prec emax (Zdigits2 m + e) ->
                   e + n = -1074 \/ 2 ^ 52 <= m / 2 ^ n).
  { intros Hpos Hshift. rewrite fexp_unfold in Hshift.
    destruct (Z.eq_dec (e + n) (-1074)) as [|Hne]; [now left|right].
    assert (Hnd : n = Zdigits2 m - 53) by (subst n; rewrite fexp_unfold in *; lia).
    apply Z.div_le_lower_bound; [apply pow2_pos; lia|].
    destruct (Zdigits2_bounds m Hpos) as [Hlo _].
    rewrite Hnd, <- pow2_split by lia.
    replace (Zdigits2 m - 53 + 52) with (Zdigits2 m - 1) by lia. exact Hlo. }
  destruct (Z.eq_dec M (2 ^ 53)) as [HM53|HM53].
  - exists (2 ^ 52), (e + n + 1).
    rewrite E, HM53, pack_carry by assumption.
    split; [reflexivity|]. split; [lia|]. split; [lia|]. split; [lia|].
    split.
    + replace (e + n + 1 - (e + n)) with 1 by lia. change (2 ^ 52 * 2 ^ 1) with (2 ^ 53). lia.
    + intros _ _. now right.
  - exists M, (e + n).
    rewrite E, pack_small by lia.
    split; [reflexivity|]. split; [lia|]. split; [lia|]. split; [lia|].
    split.
    + rewrite Z.sub_diag, Z.pow_0_r, Z.mul_1_r. exact HM.
    + intros Hpos Hshift. destruct (Hcanon Hpos Hshift); [now left|right; lia].
Qed.

(** ** Comparing two rounded floats *)

Lemma fin_leb (Ma Ea Mb Eb : Z) :
  0 <= Ma < 2 ^ 53 -> -1074 <= Ea -> (Ea = -1074 \/ 2 ^ 52 <= Ma) ->
  0 <= Mb < 2 ^ 53 -> -1074 <= Eb ->
  Ma * 2 ^ (Ea + 1074) <= Mb * 2 ^ (Eb + 1074) ->
  SFleb (fin false Ma Ea) (fin false Mb Eb) = true /\
  SFltb (fin false Mb Eb) (fin false Ma Ea) = false.
Proof.
  intros HMa HEa Hca HMb HEb Hle. unfold fin.
  destruct (Z.eqb_spec Ma 0) as [->|HMa0].
  { destruct (Mb =? 0); [split; reflexivity|]. destruct (Eb <=? 971); split; reflexivity. }
  assert (Hpa : 0 < 2 ^ (Ea + 1074)) by (apply pow2_pos; lia).
  assert (Hpb : 0 < 2 ^ (Eb + 1074)) by (apply pow2_pos; lia).
  destruct (Z.eqb_spec Mb 0) as [->|HMb0]; [nia|].
  assert (HE : Ea <= Eb).
  { destruct (Z.le_gt_cases Ea Eb) as [|Hgt]; [assumption|exfalso].
    destruct Hca as [|Hca]; [lia|].
    assert (2 ^ (Eb + 1074 + 1) <= 2 ^ (Ea + 1074)) by (apply Z.pow_le_mono_r; lia).
    rewrite pow2_split in H by lia. change (2 ^ 1) with 2 in H.
    change (2 ^ 53) with (2 ^ 52 * 2) in HMb. nia. }
  destruct (Z.leb_spec Ea 971) as [Ha|Ha]; destruct (Z.leb_spec Eb 971) as [Hb|Hb];
    try lia; try (split; reflexivity).
  unfold SFleb, SFltb, SFcompare.
  destruct (Z.compare_spec Ea Eb) as [Heq|Hlt|Hgt]; [| |lia].
  - subst Eb. rewrite Z.compare_refl. assert (Ma <= Mb) by nia.
    rewrite !Pos.compare_cont_spec. cbn [Pos.switch_Eq].
    rewrite (Pos.compare_antisym (Z.to_pos Ma) (Z.to_pos Mb)).
    destruct (Pos.compare_spec (Z.to_pos Ma) (Z.to_pos Mb)) as [| |Hgt];
      try (split; reflexivity).
    exfalso. apply Pos2Z.pos_lt_pos in Hgt. rewrite !Z2Pos.id in Hgt by lia. lia.
  - rewrite (Z.compare_antisym Ea Eb).
    destruct (Z.compare_spec Ea Eb); try lia. split; reflexivity.
Qed.

(** ** A product by a factor below one and a product by a factor above one *)

Section Spread.

Variables m1 m2 : positive.
Hypothesis Hm1 : 2 ^ 52 <= Zpos m1 < 2 ^ 53.
Hypothesis Hm2 : 2 ^ 52 <= Zpos m2 < 2 ^ 53.

Lemma product_digits (m mc : positive) :
  2 ^ 52 <= Zpos mc < 2 ^ 53 ->
  Zdigits2 (Zpos m) + 52 <= Zdigits2 (Zpos (m * mc)) <= Zdigits2 (Zpos m) + 53.
Proof.
  intros Hc.
  destruct (Zdigits2_bounds (Zpos m) ltac:(lia)) as [Hlo Hhi].
  pose proof (Zdigits2_pos (Zpos m) ltac:(lia)) as Hd.
  rewrite Pos2Z.inj_mul. split.
  - replace (Zdigits2 (Zpos m) + 52) with (Zdigits2 (Zpos m) - 1 + 52 + 1) by lia.
    apply Zdigits2_ge; [lia|]. rewrite pow2_split by lia. nia.
  - apply Zdigits2_le; [lia|]. rewrite pow2_split by lia. nia.
Qed.

Lemma spread_ordered (m : positive) (e : Z) :
  Zdigits2 (Zpos m) <= 53 -> -1074 <= e ->
  SFleb (SFmul prec emax (S754_finite false m e) (S754_finite false m1 (-53)))
        (SFmul prec emax (S754_finite false m e) (S754_finite false m2 (-52))) = true /\
  SFltb (SFmul prec emax (S754_finite false m e) (S754_finite false m2 (-52)))
        (SFmul prec emax (S754_finite false m e) (S754_finite false m1 (-53))) = false.
Proof.
  intros Hd He. cbn [SFmul xorb].
  pose proof (product_digits m m1 Hm1) as Hd1.
  pose proof (product_digits m m2 Hm2) as Hd2.
  pose proof (Zdigits2_pos (Zpos m) ltac:(lia)) as Hdpos.
  destruct (Zdigits2_bounds (Zpos m) ltac:(lia)) as [_ Hmhi].
  assert (Hm53 : Zpos m < 2 ^ 53).
  { assert (2 ^ Zdigits2 (Zpos m) <= 2 ^ 53) by (apply Z.pow_le_mono_r; lia). lia. }
  destruct (binary_round_aux_fin false (Zpos (m * m1)) (e + -53) loc_Exact ltac:(lia))
    as (Ma & Ea & Ra & HMa & HEa & Hna & Hva & Hca).
  destruct (binary_round_aux_fin false (Zpos (m * m2)) (e + -52) loc_Exact ltac:(lia))
    as (Mb & Eb & Rb & HMb & HEb & Hnb & Hvb & Hcb).
  rewrite Ra, Rb. clear Ra Rb.
  rewrite fexp_unfold in *.
  set (d1 := Zdigits2 (Zpos (m * m1))) in *.
  set (d2 := Zdigits2 (Zpos (m * m2))) in *.
  set (n1 := Z.max 0 (Z.max (d1 + (e + -53) - 53) (-1074) - (e + -53))) in *.
  set (n2 := Z.max 0 (Z.max (d2 + (e + -52) - 53) (-1074) - (e + -52))) in *.
  assert (Hn1 : 0 <= n1 <= 53) by (subst n1; lia).
  assert (Hn2 : 0 <= n2 <= 53) by (subst n2; lia).
  specialize (Hca ltac:(lia) ltac:(lia)).
  rewrite Pos2Z.inj_mul in Hva, Hvb.
  apply fin_leb; try assumption.
  (* both sides against the exact value m * 2^(e + 1074) *)
  apply Z.le_trans with (Zpos m * 2 ^ (e + 1074)).
  - (* the lower product rounds to at most m * 2^e *)
    assert (HF : Zpos m * Zpos m1 / 2 ^ n1 < Zpos m * 2 ^ (53 - n1)).
    { apply Z.div_lt_upper_bound; [apply pow2_pos; lia|].
      assert (Hp : 2 ^ n1 * 2 ^ (53 - n1) = 2 ^ 53)
        by (rewrite <- pow2_split by lia; f_equal; lia).
      nia. }
    assert (Hs : Ma * 2 ^ (Ea - (e + -53 + n1)) <= Zpos m * 2 ^ (53 - n1)) by lia.
    remember (e + -53 + n1 + 1074) as q eqn:Eq.
    assert (Hq : 0 <= q) by lia.
    replace (Ea + 1074) with ((Ea - (e + -53 + n1)) + q) by lia.
    replace (e + 1074) with ((53 - n1) + q) by lia.
    rewrite (pow2_split (Ea - (e + -53 + n1)) q), (pow2_split (53 - n1) q) by lia.
    pose proof (pow2_pos q Hq).
    rewrite !Z.mul_assoc. apply Z.mul_le_mono_nonneg_r; [lia|exact Hs].
  - (* the upper product rounds to at least m * 2^e *)
    destruct (Z.le_gt_cases n2 52) as [Hle|Hgt].
    + assert (HF : Zpos m * 2 ^ (52 - n2) <= Zpos m * Zpos m2 / 2 ^ n2).
      { apply Z.div_le_lower_bound; [apply pow2_pos; lia|].
        assert (Hp : 2 ^ n2 * 2 ^ (52 - n2) = 2 ^ 52)
          by (rewrite <- pow2_split by lia; f_equal; lia).
        nia. }
      assert (Hs : Zpos m * 2 ^ (52 - n2) <= Mb * 2 ^ (Eb - (e + -52 + n2))) by lia.
      remember (e + -52 + n2 + 1074) as q eqn:Eq.
      assert (Hq : 0 <= q) by lia.
      replace (Eb + 1074) with ((Eb - (e + -52 + n2)) + q) by lia.
      replace (e + 1074) with ((52 - n2) + q) by lia.
      rewrite (pow2_split (Eb - (e + -52 + n2)) q), (pow2_split (52 - n2) q) by lia.
      pose proof (pow2_pos q Hq).
      rewrite !Z.mul_assoc. apply Z.mul_le_mono_nonneg_r; [lia|exact Hs].
    + assert (Hn53 : n2 = 53) by lia.
      assert (Hd106 : d2 = 106) by (subst n2; lia).
      destruct (Zdigits2_bounds (Zpos (m * m2)) ltac:(lia)) as [Hlo _].
      fold d2 in Hlo. rewrite Hd106 in Hlo. change (106 - 1) with 105 in Hlo.
      rewrite Pos2Z.inj_mul in Hlo.
      assert (HF : 2 ^ 52 <= Zpos m * Zpos m2 / 2 ^ n2).
      { apply Z.div_le_lower_bound; [apply pow2_pos; lia|].
        rewrite Hn53. change (2 ^ 53 * 2 ^ 52) with (2 ^ 105). exact Hlo. }
      assert (Hs : 2 ^ 52 <= Mb * 2 ^ (Eb - (e + -52 + n2))) by lia.
      remember (e + 1074) as q eqn:Eq.
      assert (Hq : 0 <= q) by lia.
      replace (Eb + 1074) with ((Eb - (e + -52 + n2)) + (1 + q)) by lia.
      rewrite (pow2_split (Eb - (e + -52 + n2)) (1 + q)), (pow2_split 1 q) by lia.
      change (2 ^ 1) with 2.
      pose proof (pow2_pos q Hq) as Hpq.
      rewrite !Z.mul_assoc. apply Z.mul_le_mono_nonneg_r; [lia|].
      change (2 ^ 53) with (2 ^ 52 * 2) in Hm53. lia.
Qed.

End Spread.

(** ** The shape of quotients *)

Lemma fin_weakly_bounded (sx : bool) (M E : Z) :
  0 <= M < 2 ^ 53 -> -1074 <= E -> weakly_bounded (fin sx M E).
Proof.
  intros HM HE. unfold fin.
  destruct (Z.eqb_spec M 0); [exact I|].
  destruct (E <=? 971); [|exact I].
  cbn [weakly_bounded]. rewrite Z2Pos.id by lia.
  split; [apply Zdigits2_le; lia|assumption].
Qed.

Lemma fin_sign (sx : bool) (M E : Z) :
  sx = false -> nonneg_or_nan (fin sx M E).
Proof.
  intros ->. unfold fin. destruct (M =? 0); [reflexivity|].
  destruct (E <=? 971); reflexivity.
Qed.

Lemma binary_round_aux_shape (sx : bool) (m e : Z) (l : location) :
  0 <= m ->
  weakly_bounded (binary_round_aux prec emax sx m e l) /\
  (sx = false -> nonneg_or_nan (binary_round_aux prec emax sx m e l)).
Proof.
  intros Hm.
  destruct (binary_round_aux_fin sx m e l Hm) as (M' & E' & R & HM & HE & _).
  rewrite R. split; [now apply fin_weakly_bounded|apply fin_sign].
Qed.

Lemma SFdiv_core_binary_nonneg (m1 m2 : positive) (e1 e2 : Z) :
  0 <= fst (fst (SFdiv_core_binary prec emax (Zpos m1) e1 (Zpos m2) e2)).
Proof.
  unfold SFdiv_core_binary.
  set (s := _ - _ - _).
  set (m' := match s with Zpos _ => Z.shiftl (Zpos m1) s | Z0 => Zpos m1 | Zneg _ => 0 end).
  assert (Hm' : 0 <= m').
  { subst m'. destruct s; try lia. apply Z.shiftl_nonneg. lia. }
  pose proof (Z.div_pos m' (Zpos m2) Hm' ltac:(lia)) as Hq.
  unfold Z.div in Hq. destruct (Z.div_eucl m' (Zpos m2)) as [q r]. exact Hq.
Qed.

Lemma SFdiv_shape (x y : spec_float) :
  weakly_bounded (SFdiv prec emax x y) /\
  (nonneg_or_nan x -> nonneg_or_nan y -> nonneg_or_nan (SFdiv prec emax x y)).
Proof.
  destruct x as [sx|sx| |sx mx ex], y as [sy|sy| |sy my ey]; cbn [SFdiv];
    try (split; [exact I|cbn; intros; subst; reflexivity]).
  pose proof (SFdiv_core_binary_nonneg mx my ex ey) as Hq.
  destruct (SFdiv_core_binary prec emax (Zpos mx) ex (Zpos my) ey) as [[mz ez] lz].
  cbn [fst] in Hq.
  destruct (binary_round_aux_shape (xorb sx sy) mz ez lz Hq) as [Hb Hs].
  split; [exact Hb|]. cbn. intros -> ->. now apply Hs.
Qed.

Lemma spread_of_nonneg (m1 m2 : positive) (mid : spec_float) :
  2 ^ 52 <= Zpos m1 < 2 ^ 53 ->
  2 ^ 52 <= Zpos m2 < 2 ^ 53 ->
  weakly_bounded mid ->
  SFleb (S754_zero false) mid = true ->
  SFleb (SFmul prec emax mid (S754_finite false m1 (-53)))
        (SFmul prec emax mid (S754_finite false m2 (-52))) = true /\
  SFltb (SFmul prec emax mid (S754_finite false m2 (-52)))
        (SFmul prec emax mid (S754_finite false m1 (-53))) = false.
Proof.
  intros Hm1 Hm2 Hb H0.
  destruct mid as [s|s| |s m e].
  - split; reflexivity.
  - destruct s; [discriminate H0|]. split; reflexivity.
  - discriminate H0.
  - destruct s; [discriminate H0|]. destruct Hb as [Hd He].
    now apply spread_ordered.
Qed.

Lemma spread_of_nan (c1 c2 : spec_float) :
  SFltb (SFmul prec emax S754_nan c2) (SFmul prec emax S754_nan c1) = false.
Proof. reflexivity. Qed.

(** * The scanner *)

Local Open Scope string_scope.
Local Open Scope eff_scope.

(** ** Running the helper functions *)

Lemma bind_Ok {A B} (m : M A) (k : A -> M B) st a st' :
  m st = (Ok a, st') -> bind m k st = k a st'.
Proof. intros H. unfold bind. now rewrite H. Qed.

Lemma applyRateLimit_run st :
  applyRateLimit st =
    (Ok tt,
     let t := if (now st - lastCallTime st <? RATE_LIMIT_DELAY)%Z
              then (now st + (RATE_LIMIT_DELAY - (now st - lastCallTime st)))%Z
              else now st in
     {| lastCallTime := t; now := t; console := console st; posts := posts st |}).
Proof.
  unfold applyRateLimit, bind, Date_now, get_lastCallTime, set_lastCallTime, setTimeout, ret.
  destruct (now st - lastCallTime st <? RATE_LIMIT_DELAY)%Z; cbn; reflexivity.
Qed.

Lemma applyRateLimit_frame st :
  exists st', applyRateLimit st = (Ok tt, st') /\ posts st' = posts st.
Proof. rewrite applyRateLimit_run. eexists; split; reflexivity. Qed.

Lemma logMessage_run h type message st :
  exists line,
    logMessage h type message st =
      (Ok tt, {| lastCallTime := lastCallTime st; now := now st;
                 console := (console st ++ [line])%list; posts := posts st |}).
Proof.
  unfold logMessage, getFormattedTimestamp, bind, Date_now, console_log, ret.
  eexists. reflexivity.
Qed.

Lemma logMessage_frame h type message st :
  exists st',
    logMessage h type message st = (Ok tt, st') /\
    posts st' = posts st /\ now st' = now st /\ lastCallTime st' = lastCallTime st.
Proof.
  destruct (logMessage_run h type message st) as [line E].
  eexists. split; [exact E|]. cbn. auto.
Qed.

Lemma sendTelegramMessage_run h message st :
  exists st',
    sendTelegramMessage h message st = (Ok tt, st') /\
    posts st' = (posts st ++ [post_of h message])%list /\
    now st' = now st /\ lastCallTime st' = lastCallTime st.
Proof.
  unfold sendTelegramMessage, try_catch, bind, record_post, await, console_log, ret.
  cbn.
  destruct (axios_post h _ _) as [[status data]|e]; cbn.
  - destruct (negb (status =? 200)%Z); cbn; eexists; (split; [reflexivity|]); cbn; auto.
  - eexists; (split; [reflexivity|]); cbn; auto.
Qed.

Lemma fetchTradingFee_run h dexes dexName pairAddress st :
  exists st',
    fetchTradingFee h dexes dexName pairAddress st = (Ok lit_0_003, st') /\
    posts st' = posts st.
Proof.
  unfold fetchTradingFee, try_catch.
  destruct (applyRateLimit_frame st) as (st1 & E1 & P1).
  rewrite (bind_Ok _ _ _ _ _ E1).
  assert (Hcatch : forall e st2, posts st2 = posts st ->
            exists st', (logMessage h error
               ("Error fetching fee for " ++ dexName ++ " " ++ pairAddress ++ ": " ++ e) ;;
               ret lit_0_003) st2 = (Ok lit_0_003, st') /\ posts st' = posts st).
  { intros e st2 P2.
    destruct (logMessage_frame h error
      ("Error fetching fee for " ++ dexName ++ " " ++ pairAddress ++ ": " ++ e) st2)
      as (st3 & E & P3 & _).
    rewrite (bind_Ok _ _ _ _ _ E). unfold ret. eexists; split; [reflexivity|congruence]. }
  unfold deref.
  destruct (lookup dexes dexName) as [d|].
  - unfold bind at 1, ret at 1. unfold bind at 1, await.
    destruct (feeTo h (factory d)) as [a|e].
    + unfold ret. destruct (String.eqb a ZeroAddress); eexists; split; eauto.
    + apply Hcatch; assumption.
  - unfold bind at 1, throw. apply Hcatch; assumption.
Qed.

Lemma fetchDexPrice_run h dexes dexName symbol st :
  exists st',
    fetchDexPrice h dexes dexName symbol st =
      (Ok match raw_reserves h dexes dexName symbol with
          | Some (reserve0, reserve1) =>
              Some (quote_of dexName symbol reserve0 reserve1 (now st'))
          | None => None
          end, st') /\
    posts st' = posts st.
Proof.
  unfold fetchDexPrice, try_catch, raw_reserves.
  destruct (applyRateLimit_frame st) as (st1 & E1 & P1).
  rewrite (bind_Ok _ _ _ _ _ E1).
  assert (Hcatch : forall e st2, posts st2 = posts st ->
            exists st', (logMessage h error
               ("Error fetching " ++ dexName ++ " " ++ pair_name symbol ++ ": " ++ e) ;;
               ret None) st2 = (Ok (@None PriceData), st') /\ posts st' = posts st).
  { intros e st2 P2.
    destruct (logMessage_frame h error
      ("Error fetching " ++ dexName ++ " " ++ pair_name symbol ++ ": " ++ e) st2)
      as (st3 & E & P3 & _).
    rewrite (bind_Ok _ _ _ _ _ E). unfold ret. eexists; split; [reflexivity|congruence]. }
  unfold deref.
  destruct (lookup dexes dexName) as [d|].
  2:{ unfold bind at 1, throw. apply Hcatch; assumption. }
  unfold bind at 1, ret at 1. unfold bind at 1, await at 1.
  destruct (getReserves h (contract d (pairs d symbol))) as [[[reserve0 reserve1] ts]|e].
  2:{ apply Hcatch; assumption. }
  unfold bind at 1, await at 1.
  destruct (token0 h (contract d (pairs d symbol))) as [t0|e].
  2:{ apply Hcatch; assumption. }
  destruct (decimals symbol) as [decimals0 decimals1] eqn:Ed.
  destruct (fetchTradingFee_run h dexes dexName (pairs d symbol) st1) as (st2 & E2 & P2).
  rewrite (bind_Ok _ _ _ _ _ E2).
  unfold bind, Date_now, ret. cbn.
  exists st2. split; [|congruence].
  unfold quote_of, mid_price. rewrite Ed. reflexivity.
Qed.

(** ** The fan-out *)

Lemma Promise_all_fetch h dexes symbol names st :
  exists results st',
    Promise_all (fun dexName => fetchDexPrice h dexes dexName symbol) names st =
      (Ok results, st') /\
    posts st' = posts st /\
    Forall2
      (fun dexName r =>
         exists t,
           r = match raw_reserves h dexes dexName symbol with
               | Some (reserve0, reserve1) =>
                   Some (quote_of dexName symbol reserve0 reserve1 t)
               | None => None
               end)
      names results.
Proof.
  revert st. induction names as [|name names IH]; intros st.
  - exists [], st. cbn. unfold ret. auto.
  - destruct (fetchDexPrice_run h dexes name symbol st) as (st1 & E1 & P1).
    destruct (IH st1) as (results & st2 & E2 & P2 & F2).
    eexists (_ :: results), st2. cbn [Promise_all].
    rewrite (bind_Ok _ _ _ _ _ E1), (bind_Ok _ _ _ _ _ E2). unfold ret.
    split; [reflexivity|]. split; [congruence|].
    constructor; [|exact F2]. eexists. reflexivity.
Qed.

Lemma surviving_exchanges h dexes symbol names results :
  Forall2
    (fun dexName r =>
       exists t,
         r = match raw_reserves h dexes dexName symbol with
             | Some (reserve0, reserve1) =>
                 Some (quote_of dexName symbol reserve0 reserve1 t)
             | None => None
             end)
    names results ->
  map exchange (filter_not_null results) = filter (fetch_succeeds h dexes symbol) names /\
  (List.length (filter_not_null results) +
   List.length (filter (fun n => negb (fetch_succeeds h dexes symbol n)) names) =
   List.length names)%nat.
Proof.
  induction 1 as [|name r names results [t Hr] _ [IH1 IH2]]; [split; reflexivity|].
  subst r. cbn [filter].
  assert (Hs : fetch_succeeds h dexes symbol name =
               match raw_reserves h dexes name symbol with Some _ => true | None => false end)
    by reflexivity.
  rewrite Hs.
  destruct (raw_reserves h dexes name symbol) as [[reserve0 reserve1]|]; cbn.
  - rewrite IH1. split; [reflexivity|]. now rewrite IH2.
  - split; [exact IH1|]. rewrite <- IH2. lia.
Qed.

(** ** The evaluation never throws and posts one message *)

Lemma format_profitable_run h symbol lo hi bf sf paf pp st :
  exists rest,
    Scanner.formatArbitrageMessage h symbol lo hi bf sf paf pp st =
      (Ok ("🚨 *PROFITABLE OPPORTUNITY* 🚨" ++ rest), st).
Proof.
  unfold Scanner.formatArbitrageMessage, getFormattedTimestamp, bind, Date_now, ret.
  eexists. reflexivity.
Qed.

Lemma format_update_run h symbol lo hi bf sf p paf pp st :
  exists rest,
    forall isSwap,
      Scanner.formatNonProfitableMessage h symbol lo hi bf sf p paf pp isSwap st =
        (Ok ((if isSwap then "📊 *SWAP DETECTED*" else "📊 *MARKET UPDATE*") ++ rest), st).
Proof.
  unfold Scanner.formatNonProfitableMessage, getFormattedTimestamp, bind, Date_now, ret.
  eexists. intros isSwap. reflexivity.
Qed.

Lemma announce_run h type line message st :
  exists st',
    (logMessage h type line ;; logMessage h type message ;;
     sendTelegramMessage h message) st = (Ok tt, st') /\
    posts st' = (posts st ++ [post_of h message])%list.
Proof.
  destruct (logMessage_frame h type line st) as (st1 & E1 & P1 & _).
  destruct (logMessage_frame h type message st1) as (st2 & E2 & P2 & _).
  destruct (sendTelegramMessage_run h message st2) as (st3 & E3 & P3 & _).
  exists st3.
  rewrite (bind_Ok _ _ _ _ _ E1), (bind_Ok _ _ _ _ _ E2), E3.
  split; [reflexivity|congruence].
Qed.

Lemma report_profitable_run h symbol ev st :
  profitable ev = true ->
  exists rest st',
    (forall triggerEvent, report h symbol ev triggerEvent st = (Ok tt, st')) /\
    posts st' = (posts st ++ [post_of h ("🚨 *PROFITABLE OPPORTUNITY* 🚨" ++ rest)])%list.
Proof.
  intros Hp. unfold report. rewrite Hp.
  destruct (format_profitable_run h symbol (lowestAsk ev) (highestBid ev) (buyFee ev)
              (sellFee ev) (profitAfterFees ev) (profitPercentage ev) st) as [rest E].
  rewrite (bind_Ok _ _ _ _ _ E).
  destruct (announce_run h arb ("Opportunity: " ++ pair_name symbol)
              ("🚨 *PROFITABLE OPPORTUNITY* 🚨" ++ rest) st) as (st' & E' & P').
  exists rest, st'. split; [intros _; exact E'|exact P'].
Qed.

Lemma report_update_run h symbol ev st :
  profitable ev = false ->
  exists rest,
    forall triggerEvent,
      exists st',
        report h symbol ev triggerEvent st = (Ok tt, st') /\
        posts st' =
          (posts st ++
           [post_of h ((if triggerEvent then "📊 *SWAP DETECTED*"
                        else "📊 *MARKET UPDATE*") ++ rest)])%list.
Proof.
  intros Hp. unfold report. rewrite Hp.
  destruct (format_update_run h symbol (lowestAsk ev) (highestBid ev) (buyFee ev)
              (sellFee ev) (profit ev) (profitAfterFees ev) (profitPercentage ev) st)
    as [rest E].
  exists rest. intros triggerEvent.
  rewrite (bind_Ok _ _ _ _ _ (E triggerEvent)).
  apply announce_run.
Qed.

Lemma report_run h symbol ev triggerEvent st :
  exists message st',
    report h symbol ev triggerEvent st = (Ok tt, st') /\
    posts st' = (posts st ++ [post_of h message])%list.
Proof.
  destruct (profitable ev) eqn:Hp.
  - destruct (report_profitable_run h symbol ev st Hp) as (rest & st' & E & P). eauto.
  - destruct (report_update_run h symbol ev st Hp) as [rest H].
    destruct (H triggerEvent) as (st' & E & P). eauto.
Qed.

Lemma no_data_run h symbol triggerEvent st :
  exists st',
    evaluateQuotes h symbol [] triggerEvent st = (Ok tt, st') /\
    posts st' = (posts st ++ [post_of h ("⚠️ No data for " ++ pair_name symbol)])%list.
Proof.
  cbn [evaluateQuotes].
  destruct (logMessage_frame h error ("No data for " ++ pair_name symbol) st)
    as (st1 & E1 & P1 & _).
  destruct (sendTelegramMessage_run h ("⚠️ No data for " ++ pair_name symbol) st1)
    as (st2 & E2 & P2 & _).
  exists st2. rewrite (bind_Ok _ _ _ _ _ E1), E2. split; [reflexivity|congruence].
Qed.

Lemma evaluateQuotes_run h symbol validResults triggerEvent st :
  exists message st',
    evaluateQuotes h symbol validResults triggerEvent st = (Ok tt, st') /\
    posts st' = (posts st ++ [post_of h message])%list.
Proof.
  destruct validResults as [|first rest].
  - destruct (no_data_run h symbol triggerEvent st) as (st' & E & P). eauto.
  - apply report_run.
Qed.

Lemma scanArbitrage_run h dexes symbol triggerEvent st :
  exists validResults st1,
    collect h dexes symbol st = (Ok validResults, st1) /\
    posts st1 = posts st /\
    scanArbitrage h dexes symbol triggerEvent st =
      evaluateQuotes h symbol validResults triggerEvent st1.
Proof.
  destruct (Promise_all_fetch h dexes symbol (Object_keys dexes) st)
    as (results & st1 & E1 & P1 & _).
  exists (filter_not_null results), st1.
  assert (Ec : collect h dexes symbol st = (Ok (filter_not_null results), st1)).
  { unfold collect. rewrite (bind_Ok _ _ _ _ _ E1). reflexivity. }
  split; [exact Ec|]. split; [exact P1|].
  unfold scanArbitrage, try_catch. rewrite (bind_Ok _ _ _ _ _ Ec).
  destruct (evaluateQuotes_run h symbol (filter_not_null results) triggerEvent st1)
    as (message & st2 & E2 & _).
  now rewrite E2.
Qed.

Lemma scanArbitrage_posts_once h dexes symbol triggerEvent st :
  exists message st',
    scanArbitrage h dexes symbol triggerEvent st = (Ok tt, st') /\
    posts st' = (posts st ++ [post_of h message])%list.
Proof.
  destruct (scanArbitrage_run h dexes symbol triggerEvent st)
    as (validResults & st1 & _ & P1 & E).
  destruct (evaluateQuotes_run h symbol validResults triggerEvent st1)
    as (message & st2 & E2 & P2).
  exists message, st2. rewrite E, E2. split; [reflexivity|congruence].
Qed.

(** ** The selection made by [reduce] *)

Section Reduce.

Context {A : Type} (better : A -> A -> bool).

Lemma fold_keeps_unbeaten (after : list A) (q : A) :
  (forall p, In p after -> better p q = false) ->
  fold_left (keep_better better) after q = q.
Proof.
  induction after as [|p after IH]; intros H; [reflexivity|].
  cbn [fold_left]. unfold keep_better at 2. rewrite (H p (or_introl eq_refl)).
  apply IH. intros p' Hp'. apply H. now right.
Qed.

Lemma fold_stays_inside (l : list A) (acc : A) :
  In (fold_left (keep_better better) l acc) (acc :: l).
Proof.
  revert acc. induction l as [|p l IH]; intros acc; [now left|].
  cbn [fold_left]. specialize (IH (keep_better better acc p)).
  destruct IH as [IH|IH].
  - rewrite <- IH. unfold keep_better. destruct (better p acc); [right; now left|now left].
  - right. now right.
Qed.

Lemma reduce_picks_first_best (first : A) (rest before after : list A) (q : A) :
  first :: rest = (before ++ q :: after)%list ->
  (forall p, In p before -> better q p = true) ->
  (forall p, In p after -> better p q = false) ->
  reduce (keep_better better) first rest = q.
Proof.
  intros Hsplit Hbefore Hafter. unfold reduce.
  destruct before as [|b before]; cbn in Hsplit; injection Hsplit as -> ->.
  - now apply fold_keeps_unbeaten.
  - rewrite fold_left_app. cbn [fold_left].
    assert (Hin : In (fold_left (keep_better better) before b) (b :: before))
      by apply fold_stays_inside.
    unfold keep_better at 2. rewrite (Hbefore _ Hin).
    now apply fold_keeps_unbeaten.
Qed.

End Reduce.

(** ** The evaluator *)

(** C1: on the quotes [{ask:100, bid:99, fee:0.003}] from A and
    [{ask:101, bid:102, fee:0.003}] from B the evaluator buys on A at 100 and
    sells on B at 102, with gross profit 2, buy fee 0.3, sell fee 0.306, net
    profit 1.394 and net profit percentage 1.394, each the binary64 value of
    that decimal, and reports a profitable opportunity. *)
Theorem evaluate_two_quotes :
  evaluate Examples.quoteA [Examples.quoteB] =
    {| lowestAsk := Examples.quoteA; highestBid := Examples.quoteB;
       buyPrice := of_Z 100; sellPrice := of_Z 102; profit := of_Z 2;
       buyFee := of_ratio 3 10; sellFee := of_ratio 306 1000;
       profitAfterFees := of_ratio 1394 1000;
       profitPercentage := of_ratio 1394 1000 |} /\
  profitable (evaluate Examples.quoteA [Examples.quoteB]) = true /\
  forall h symbol triggerEvent st,
    exists rest st',
      evaluateQuotes h symbol [Examples.quoteA; Examples.quoteB] triggerEvent st =
        (Ok tt, st') /\
      posts st' =
        (posts st ++ [post_of h ("🚨 *PROFITABLE OPPORTUNITY* 🚨" ++ rest)])%list.
Proof.
  assert (Hp : profitable (evaluate Examples.quoteA [Examples.quoteB]) = true)
    by (vm_compute; reflexivity).
  split; [vm_compute; reflexivity|]. split; [exact Hp|].
  intros h symbol triggerEvent st. cbn [evaluateQuotes].
  destruct (report_profitable_run h symbol _ st Hp) as (rest & st' & E & P).
  exists rest, st'. split; [apply E|exact P].
Qed.

(** C8 as stated fails when asks tie.  With the two ETH/USDT pools at
    neighbouring mid prices, the quote fetched from sushiswap has the
    minimal ask, equal to that of uniswap, and the maximal bid; the
    evaluator sells on sushiswap and buys on uniswap, the first of the two. *)
Lemma tie_splits_buy_and_sell :
  exists first second st',
    collect Examples.tie_host DEXES ETH_USDT Examples.start =
      (Ok [first; second], st') /\
    (forall p, In p [first; second] -> leb (ask second) (ask p) = true) /\
    (forall p, In p [first; second] -> leb (bid p) (bid second) = true) /\
    ask second = ask first /\
    gtb (bid second) (bid first) = true /\
    exchange second = "sushiswap" /\
    exchange (highestBid (evaluate first [second])) = "sushiswap" /\
    exchange (lowestAsk (evaluate first [second])) = "uniswap".
Proof.
  eexists _, _, _. split; [vm_compute; reflexivity|].
  split; [intros p [<-|[<-|[]]]; vm_compute; reflexivity|].
  split; [intros p [<-|[<-|[]]]; vm_compute; reflexivity|].
  repeat split; vm_compute; reflexivity.
Qed.

(** C8, amended: when one quote of a non-empty list has an ask strictly
    below the ask of every quote before it and no quote after it has a
    strictly lower ask, and likewise a bid strictly above every earlier bid
    and not exceeded by any later one, the evaluator selects that quote both
    to buy and to sell, computes the result by the usual fee-adjusted
    formulas, and reports it without error. *)
Theorem same_quote_bought_and_sold
    (first : PriceData) (rest before after : list PriceData) (q : PriceData) :
  first :: rest = (before ++ q :: after)%list ->
  first_lowest_ask before q after ->
  first_highest_bid before q after ->
  let ev := evaluate first rest in
  lowestAsk ev = q /\ highestBid ev = q /\
  buyPrice ev = ask q /\ sellPrice ev = bid q /\
  profit ev = sub (bid q) (ask q) /\
  buyFee ev = mul (ask q) (tradingFee q) /\
  sellFee ev = mul (bid q) (tradingFee q) /\
  profitAfterFees ev = sub (sub (profit ev) (buyFee ev)) (sellFee ev) /\
  profitPercentage ev = mul (div (profitAfterFees ev) (ask q)) lit_100 /\
  forall h symbol triggerEvent st,
    exists message st',
      evaluateQuotes h symbol (first :: rest) triggerEvent st = (Ok tt, st') /\
      posts st' = (posts st ++ [post_of h message])%list.
Proof.
  intros Hsplit [Ha1 Ha2] [Hb1 Hb2] ev.
  assert (Hlo : lowestAsk ev = q).
  { apply (reduce_picks_first_best (fun curr min => ltb (ask curr) (ask min))
             first rest before after q Hsplit); assumption. }
  assert (Hhi : highestBid ev = q).
  { apply (reduce_picks_first_best (fun curr max => gtb (bid curr) (bid max))
             first rest before after q Hsplit); assumption. }
  assert (Hbuy : buyPrice ev = ask q) by (rewrite <- Hlo; reflexivity).
  assert (Hsell : sellPrice ev = bid q) by (rewrite <- Hhi; reflexivity).
  repeat split; try assumption.
  - rewrite <- Hbuy, <- Hsell. reflexivity.
  - change (buyFee ev) with (mul (ask (lowestAsk ev)) (tradingFee (lowestAsk ev))).
    now rewrite Hlo.
  - change (sellFee ev) with (mul (bid (highestBid ev)) (tradingFee (highestBid ev))).
    now rewrite Hhi.
  - rewrite <- Hbuy. reflexivity.
  - intros h symbol triggerEvent st. apply evaluateQuotes_run.
Qed.

Lemma same_quote_bought_and_sold_witness :
  lowestAsk (evaluate Examples.otherD [Examples.bestC]) = Examples.bestC /\
  highestBid (evaluate Examples.otherD [Examples.bestC]) = Examples.bestC.
Proof.
  assert (Ha : first_lowest_ask [Examples.otherD] Examples.bestC []).
  { split; [intros p [<-|[]]; vm_compute; reflexivity|intros p []]. }
  assert (Hb : first_highest_bid [Examples.otherD] Examples.bestC []).
  { split; [intros p [<-|[]]; vm_compute; reflexivity|intros p []]. }
  pose proof (same_quote_bought_and_sold Examples.otherD [Examples.bestC]
                [Examples.otherD] [] Examples.bestC eq_refl Ha Hb) as H.
  cbv zeta in H. destruct H as (H1 & H2 & _). split; [exact H1|exact H2].
Defined.

(** C5: with no surviving quote the evaluation does not throw and its one
    message is the "no data" notification for the pair; so does a scan all
    of whose fetches fail. *)
Theorem no_quotes_no_data (h : Host) (symbol : TokenPair) (triggerEvent : bool)
    (st : State) :
  (exists st',
     evaluateQuotes h symbol [] triggerEvent st = (Ok tt, st') /\
     posts st' =
       (posts st ++ [post_of h ("⚠️ No data for " ++ pair_name symbol)])%list) /\
  forall dexes,
    (forall dexName, In dexName (Object_keys dexes) ->
                     fetch_succeeds h dexes symbol dexName = false) ->
    exists st',
      scanArbitrage h dexes symbol triggerEvent st = (Ok tt, st') /\
      posts st' =
        (posts st ++ [post_of h ("⚠️ No data for " ++ pair_name symbol)])%list.
Proof.
  split; [apply no_data_run|].
  intros dexes Hfail.
  destruct (Promise_all_fetch h dexes symbol (Object_keys dexes) st)
    as (results & st1 & E & P1 & F).
  destruct (surviving_exchanges h dexes symbol _ _ F) as [Hmap _].
  assert (Hnone : filter (fetch_succeeds h dexes symbol) (Object_keys dexes) = []).
  { clear - Hfail. induction (Object_keys dexes) as [|name names IH]; [reflexivity|].
    cbn [filter]. rewrite (Hfail name (or_introl eq_refl)).
    apply IH. intros n Hn. apply Hfail. now right. }
  rewrite Hnone in Hmap. apply map_eq_nil in Hmap.
  destruct (scanArbitrage_run h dexes symbol triggerEvent st)
    as (validResults & st1' & Ec & _ & Es).
  unfold collect in Ec. rewrite (bind_Ok _ _ _ _ _ E) in Ec. unfold ret in Ec.
  injection Ec as <- <-. rewrite Hmap in Es.
  destruct (no_data_run h symbol triggerEvent st1) as (st' & E' & P').
  exists st'. rewrite Es, E'. split; [reflexivity|congruence].
Qed.

(** ** The rate limiter *)

(** C2 as stated fails: the limiter holds one time for all sources.  In a
    process that has made no call yet, a call for uniswap moves the time
    held for sushiswap, and the call for sushiswap that follows waits a
    full [RATE_LIMIT_DELAY]. *)
Lemma throttle_delays_other_source :
  "uniswap" <> "sushiswap" /\
  last_call_time Examples.start "sushiswap" = 0 /\
  last_call_time (exec (throttle "uniswap") Examples.start) "sushiswap" = 1735689600000 /\
  now (exec (throttle "uniswap") Examples.start) = now Examples.start /\
  now (exec (throttle "sushiswap") (exec (throttle "uniswap") Examples.start)) =
    now (exec (throttle "uniswap") Examples.start) + RATE_LIMIT_DELAY.
Proof. repeat split; try reflexivity. discriminate. Qed.

(** C2, amended: the limiter keeps a single [lastCallTime] shared by all
    sources.  A call for any source sets it to the time the call completes,
    and a call for any source that starts less than [RATE_LIMIT_DELAY] after
    it completes exactly [RATE_LIMIT_DELAY] after it, whichever source made
    the earlier call. *)
Theorem throttle_shared_by_all_sources (s s' : string) (st : State) (dt : Z) :
  0 <= dt < RATE_LIMIT_DELAY ->
  let st1 := exec (throttle s) st in
  let st2 := exec (throttle s') (elapse dt st1) in
  (forall source, last_call_time st1 source = now st1) /\
  now st2 = now st1 + RATE_LIMIT_DELAY /\
  (forall source, last_call_time st2 source = now st2).
Proof.
  intros Hdt st1 st2. subst st1 st2.
  unfold throttle, exec, elapse, last_call_time, exec.
  rewrite (applyRateLimit_run st). cbn [snd].
  set (t := if (now st - lastCallTime st <? RATE_LIMIT_DELAY)%Z then _ else _).
  cbn [now lastCallTime setTimeout snd].
  rewrite applyRateLimit_run. cbn [snd now lastCallTime].
  replace (t + dt - t <? RATE_LIMIT_DELAY)%Z with true
    by (symmetry; apply Z.ltb_lt; lia).
  cbn [now lastCallTime]. repeat split; try reflexivity; lia.
Qed.

Lemma throttle_shared_by_all_sources_witness :
  now (exec (throttle "sushiswap")
         (elapse 0 (exec (throttle "uniswap") Examples.start))) =
  now (exec (throttle "uniswap") Examples.start) + RATE_LIMIT_DELAY.
Proof.
  assert (H : 0 <= 0 < RATE_LIMIT_DELAY) by (unfold RATE_LIMIT_DELAY; lia).
  exact (proj1 (proj2 (throttle_shared_by_all_sources "uniswap" "sushiswap"
                         Examples.start 0 H))).
Defined.

(** ** Fetching one quote *)

(** C3: when the two reads of the pool succeed and the fee lookup on the
    factory throws, [fetchDexPrice] still returns a quote, its fee is the
    default 0.003, and nothing is thrown. *)
Theorem fee_lookup_failure_falls_back (h : Host) (dexes : DexConfigs)
    (dexName : string) (symbol : TokenPair) (st : State) (d : DexConfig)
    (reserve0 reserve1 blockTimestampLast : Z) (token0_ e : string) :
  lookup dexes dexName = Some d ->
  getReserves h (contract d (pairs d symbol)) =
    Ok (reserve0, reserve1, blockTimestampLast) ->
  token0 h (contract d (pairs d symbol)) = Ok token0_ ->
  feeTo h (factory d) = Throw e ->
  exists q st',
    fetchDexPrice h dexes dexName symbol st = (Ok (Some q), st') /\
    tradingFee q = of_ratio 3 1000 /\
    forall st1,
      exists st2,
        fetchTradingFee h dexes dexName (pairs d symbol) st1 =
          (Ok (of_ratio 3 1000), st2).
Proof.
  intros Hd Hr Ht He.
  destruct (fetchDexPrice_run h dexes dexName symbol st) as (st' & E & _).
  unfold raw_reserves in E. rewrite Hd, Hr, Ht in E.
  eexists _, st'. split; [exact E|]. split; [reflexivity|].
  intros st1.
  destruct (fetchTradingFee_run h dexes dexName (pairs d symbol) st1) as (st2 & E2 & _).
  exists st2. exact E2.
Qed.

Lemma fee_lookup_failure_falls_back_witness :
  exists q st',
    fetchDexPrice Examples.host DEXES "uniswap" ETH_USDT Examples.start =
      (Ok (Some q), st') /\
    tradingFee q = of_ratio 3 1000.
Proof.
  destruct (lookup DEXES "uniswap") as [d|] eqn:Hd; [|discriminate Hd].
  destruct (fee_lookup_failure_falls_back Examples.host DEXES "uniswap" ETH_USDT
              Examples.start d 1000000000000000000000 2000000000000 0
              "0xC02aaA39b223FE8D0A0e5C4F27eAD9083C756Cc2" "missing revert data" Hd)
    as (q & st' & E & F & _).
  - injection Hd as <-. reflexivity.
  - reflexivity.
  - reflexivity.
  - exists q, st'. split; [exact E|exact F].
Defined.

(** X15: the prices of a fetched quote come from the two reserves by their
    position in the answer of [getReserves()], whatever [token0()] answers:
    a successful fetch of [symbol] divides the second reserve by the first,
    the first scaled by 8 decimals for WBTC/USDT and by 18 otherwise, the
    second by 18 decimals for ETH/DAI and by 6 otherwise, and returns the
    quote whose bid is that ratio times [1 - 0.002] and whose ask is it
    times [1 + 0.002]. *)
Theorem fetch_quote_from_reserves (h : Host) (dexes : DexConfigs)
    (dexName : string) (symbol : TokenPair) (st st' : State) (q : PriceData) :
  fetchDexPrice h dexes dexName symbol st = (Ok (Some q), st') ->
  exists d reserve0 reserve1 blockTimestampLast,
    lookup dexes dexName = Some d /\
    getReserves h (contract d (pairs d symbol)) =
      Ok (reserve0, reserve1, blockTimestampLast) /\
    let mid := div (Number_formatUnits reserve1 (snd (decimals symbol)))
                   (Number_formatUnits reserve0 (fst (decimals symbol))) in
    bid q = mul mid (sub (of_Z 1) (of_ratio 2 1000)) /\
    ask q = mul mid (add (of_Z 1) (of_ratio 2 1000)) /\
    decimals WBTC_USDT = (8, 6) /\
    decimals ETH_USDT = (18, 6) /\
    decimals ETH_DAI = (18, 18).
Proof.
  intros E.
  destruct (fetchDexPrice_run h dexes dexName symbol st) as (st1 & E1 & _).
  rewrite E in E1. unfold raw_reserves in E1.
  destruct (lookup dexes dexName) as [d|] eqn:Hd; [|discriminate E1].
  destruct (getReserves h (contract d (pairs d symbol)))
    as [[[reserve0 reserve1] blockTimestampLast]|] eqn:Hr; [|discriminate E1].
  destruct (token0 h (contract d (pairs d symbol))); [|discriminate E1].
  injection E1 as -> _.
  exists d, reserve0, reserve1, blockTimestampLast.
  split; [reflexivity|]. split; [exact Hr|].
  cbv zeta.
  replace (sub (of_Z 1) (of_ratio 2 1000)) with lit_0_998 by (vm_compute; reflexivity).
  replace (add (of_Z 1) (of_ratio 2 1000)) with lit_1_002 by (vm_compute; reflexivity).
  repeat split; reflexivity.
Qed.

Lemma fetch_quote_from_reserves_witness :
  exists q st',
    fetchDexPrice Examples.host DEXES "uniswap" ETH_USDT Examples.start =
      (Ok (Some q), st') /\
    bid q = mul (of_Z 2000) (sub (of_Z 1) (of_ratio 2 1000)) /\
    ask q = mul (of_Z 2000) (add (of_Z 1) (of_ratio 2 1000)).
Proof.
  destruct (fetchDexPrice_run Examples.host DEXES "uniswap" ETH_USDT Examples.start)
    as (st' & E & _).
  destruct (fetch_quote_from_reserves Examples.host DEXES "uniswap" ETH_USDT
              Examples.start st' _ E)
    as (d & reserve0 & reserve1 & ts & Hd & Hr & Hq).
  cbv zeta in Hq. destruct Hq as (Hb & Ha & _).
  injection Hd as <-. injection Hr as <- <- _.
  eexists _, st'. split; [exact E|]. split; [exact Hb|exact Ha].
Defined.

(** C6: on a pool whose [token0] is the quote token the fetched prices are
    not those of quote reserve over base reserve.  [fetchDexPrice] reads
    [token0()] and does not use it: it always divides [reserve1] by
    [reserve0].  On the uniswap ETH/DAI pool with DAI as [token0], 2000000
    DAI and 1000 ETH, the quote reserve over the base reserve is 2000, and
    the quote fetched has the bid and the ask of the mid price 0.0005. *)
Theorem quote_first_pool_inverts_mid :
  let reserve0 := 2000000000000000000000000 in
  let reserve1 := 1000000000000000000000 in
  let by_token :=
    mid_by_token ETH_DAI Examples.WETH Examples.DAI reserve0 reserve1 in
  exists d q st',
    lookup DEXES "uniswap" = Some d /\
    contract d (pairs d ETH_DAI) = Examples.uniswap_ETH_DAI /\
    getReserves Examples.dai_first_host Examples.uniswap_ETH_DAI =
      Ok (reserve0, reserve1, 0) /\
    token0 Examples.dai_first_host Examples.uniswap_ETH_DAI = Ok Examples.DAI /\
    fetchDexPrice Examples.dai_first_host DEXES "uniswap" ETH_DAI Examples.start =
      (Ok (Some q), st') /\
    by_token = of_Z 2000 /\
    bid q = mul (of_ratio 1 2000) (sub (of_Z 1) (of_ratio 2 1000)) /\
    ask q = mul (of_ratio 1 2000) (add (of_Z 1) (of_ratio 2 1000)) /\
    bid q <> mul by_token (sub (of_Z 1) (of_ratio 2 1000)) /\
    ask q <> mul by_token (add (of_Z 1) (of_ratio 2 1000)).
Proof.
  cbv zeta.
  destruct (fetchDexPrice_run Examples.dai_first_host DEXES "uniswap" ETH_DAI
              Examples.start) as (st' & E & _).
  destruct (lookup DEXES "uniswap") as [d|] eqn:Hd; [|discriminate Hd].
  injection Hd as <-.
  eexists _, _, st'.
  split; [reflexivity|]. split; [reflexivity|]. split; [reflexivity|].
  split; [reflexivity|]. split; [exact E|].
  split; [vm_compute; reflexivity|].
  split; [vm_compute; reflexivity|].
  split; [vm_compute; reflexivity|].
  split; intros H; vm_compute in H; discriminate H.
Qed.

(** ** The aggregator *)

(** C4: the aggregator runs one fetch per configured source, each fetch
    settles with a quote or with [null] and none throws, and the quotes kept
    are exactly those of the sources whose reads succeeded, in order: the
    failed ones are dropped, so as many quotes survive as sources did not
    fail (two when one of three fails), and the evaluation runs over them. *)
Theorem collect_keeps_surviving_quotes (h : Host) (dexes : DexConfigs)
    (symbol : TokenPair) (st : State) :
  exists results st',
    Promise_all (fun dexName => fetchDexPrice h dexes dexName symbol)
      (Object_keys dexes) st = (Ok results, st') /\
    Forall2
      (fun dexName r =>
         exists t,
           r = match raw_reserves h dexes dexName symbol with
               | Some (reserve0, reserve1) =>
                   Some (quote_of dexName symbol reserve0 reserve1 t)
               | None => None
               end)
      (Object_keys dexes) results /\
    collect h dexes symbol st = (Ok (filter_not_null results), st') /\
    map exchange (filter_not_null results) =
      filter (fetch_succeeds h dexes symbol) (Object_keys dexes) /\
    (List.length (filter_not_null results) +
     List.length (filter (fun n => negb (fetch_succeeds h dexes symbol n))
                    (Object_keys dexes)) =
     List.length (Object_keys dexes))%nat /\
    forall triggerEvent,
      scanArbitrage h dexes symbol triggerEvent st =
        evaluateQuotes h symbol (filter_not_null results) triggerEvent st'.
Proof.
  destruct (Promise_all_fetch h dexes symbol (Object_keys dexes) st)
    as (results & st' & E & _ & F).
  destruct (surviving_exchanges h dexes symbol _ _ F) as [Hmap Hlen].
  assert (Ec : collect h dexes symbol st = (Ok (filter_not_null results), st')).
  { unfold collect. rewrite (bind_Ok _ _ _ _ _ E). reflexivity. }
  exists results, st'. repeat split; try assumption.
  intros triggerEvent.
  destruct (scanArbitrage_run h dexes symbol triggerEvent st)
    as (validResults & st1 & Ec' & _ & Es).
  rewrite Ec in Ec'. injection Ec' as <- <-. exact Es.
Qed.

Lemma collect_keeps_surviving_quotes_witness :
  exists validResults st',
    collect Examples.partial_host Examples.three_dexes ETH_USDT Examples.start =
      (Ok validResults, st') /\
    map exchange validResults = ["uniswap"; "sushiswap"] /\
    List.length validResults = 2%nat.
Proof.
  destruct (collect_keeps_surviving_quotes Examples.partial_host Examples.three_dexes
              ETH_USDT Examples.start) as (results & st' & _ & _ & Ec & Hmap & _ & _).
  assert (Hx : map exchange (filter_not_null results) = ["uniswap"; "sushiswap"])
    by (rewrite Hmap; vm_compute; reflexivity).
  exists (filter_not_null results), st'. split; [exact Ec|]. split; [exact Hx|].
  rewrite <- (length_map exchange), Hx. reflexivity.
Defined.

(** ** Swap events *)

Lemma swapListener_run h dexes symbol dexName args st :
  exists details message st',
    swapListener h dexes symbol dexName args st =
      (logMessage h swap details ;; scanArbitrage h dexes symbol true) st /\
    swapListener h dexes symbol dexName args st = (Ok tt, st') /\
    posts st' = (posts st ++ [post_of h message])%list.
Proof.
  unfold swapListener.
  match goal with |- context [logMessage h swap ?x] => set (details := x) end.
  destruct (logMessage_frame h swap details st) as (st1 & E1 & P1 & _).
  destruct (scanArbitrage_posts_once h dexes symbol true st1) as (message & st' & E & P).
  exists details, message, st'. split; [reflexivity|].
  rewrite (bind_Ok _ _ _ _ _ E1), E. split; [reflexivity|congruence].
Qed.

Lemma one_listener_per_pool symbol dexName d :
  In (dexName, d) DEXES ->
  filter (fun l => String.eqb (listens_on l) (contract d (pairs d symbol)))
    (setupEventListeners DEXES) =
  [ {| listens_on := contract d (pairs d symbol); listener_symbol := symbol;
       listener_dexName := dexName |} ].
Proof.
  intros [H|[H|[]]]; injection H as <- <-; destruct symbol; vm_compute; reflexivity.
Qed.

Lemma titles_differ rest :
  "📊 *SWAP DETECTED*" ++ rest <> "📊 *MARKET UPDATE*" ++ rest.
Proof. cbn. intros H. discriminate H. Qed.

(** C7 as stated fails on a profitable result: with the uniswap ETH/USDT
    pool cheaper than the sushiswap one, the scan run for a swap on the
    uniswap pool and the scan run without an event send the same message. *)
Lemma swap_flag_invisible_when_profitable :
  posted_texts
    (exec (emitSwap Examples.host DEXES (setupEventListeners DEXES)
             Examples.uniswap_ETH_USDT Examples.swap_args) Examples.start) =
  posted_texts (exec (scanArbitrage Examples.host DEXES ETH_USDT false) Examples.start) /\
  posted_texts (exec (scanArbitrage Examples.host DEXES ETH_USDT false) Examples.start) =
  [ "🚨 *PROFITABLE OPPORTUNITY* 🚨" ++ nl ++
    "*Time:* 2025-01-01 00:00:00" ++ nl ++
    "*Pair:* ETH/USDT" ++ nl ++
    "*Buy:* uniswap at $2004.00 (Fee: $6.01)" ++ nl ++
    "*Sell:* sushiswap at $2095.80 (Fee: $6.29)" ++ nl ++
    "*Total Fees:* $12.30" ++ nl ++
    "*Profit After Fees:* $79.50 (3.97%)" ].
Proof. split; vm_compute; reflexivity. Qed.

(** C7, amended: a Swap event on the pool of a configured source for pair P
    runs exactly one listener, which logs the swap and scans P once with
    [triggerEvent = true], sending exactly one message.  The flag shows only
    in the title of the message of a non-profitable result ("SWAP DETECTED"
    instead of "MARKET UPDATE"); the message of a profitable result and the
    "no data" message are the same with and without it. *)
Theorem swap_event_scans_once (h : Host) (symbol : TokenPair) (dexName : string)
    (d : DexConfig) (args : SwapArgs) (st : State) :
  In (dexName, d) DEXES ->
  (exists details message st',
     emitSwap h DEXES (setupEventListeners DEXES) (contract d (pairs d symbol)) args st =
       (logMessage h swap details ;; scanArbitrage h DEXES symbol true) st /\
     emitSwap h DEXES (setupEventListeners DEXES) (contract d (pairs d symbol)) args st =
       (Ok tt, st') /\
     posts st' = (posts st ++ [post_of h message])%list) /\
  (forall ev st0,
     profitable ev = false ->
     exists rest st_swap st_plain,
       report h symbol ev true st0 = (Ok tt, st_swap) /\
       report h symbol ev false st0 = (Ok tt, st_plain) /\
       posts st_swap = (posts st0 ++ [post_of h ("📊 *SWAP DETECTED*" ++ rest)])%list /\
       posts st_plain = (posts st0 ++ [post_of h ("📊 *MARKET UPDATE*" ++ rest)])%list /\
       "📊 *SWAP DETECTED*" ++ rest <> "📊 *MARKET UPDATE*" ++ rest) /\
  (forall ev st0,
     profitable ev = true ->
     report h symbol ev true st0 = report h symbol ev false st0) /\
  (forall st0,
     evaluateQuotes h symbol [] true st0 = evaluateQuotes h symbol [] false st0).
Proof.
  intros Hin. split; [|split; [|split]].
  - unfold emitSwap. rewrite (one_listener_per_pool symbol dexName d Hin).
    cbn [forEach listener_symbol listener_dexName].
    destruct (swapListener_run h DEXES symbol dexName args st)
      as (details & message & st' & E1 & E2 & P).
    exists details, message, st'.
    rewrite (bind_Ok _ _ _ _ _ E2). unfold ret.
    rewrite <- E1, E2. auto.
  - intros ev st0 Hp.
    destruct (report_update_run h symbol ev st0 Hp) as [rest H].
    destruct (H true) as (st_swap & E1 & P1).
    destruct (H false) as (st_plain & E2 & P2).
    exists rest, st_swap, st_plain.
    repeat split; try assumption. apply titles_differ.
  - intros ev st0 Hp.
    destruct (report_profitable_run h symbol ev st0 Hp) as (rest & st' & E & _).
    now rewrite (E true), (E false).
  - reflexivity.
Qed.

Lemma swap_event_scans_once_witness :
  exists details message st',
    emitSwap Examples.flat_host DEXES (setupEventListeners DEXES)
      Examples.uniswap_ETH_USDT Examples.swap_args Examples.start =
      (logMessage Examples.flat_host swap details ;;
       scanArbitrage Examples.flat_host DEXES ETH_USDT true) Examples.start /\
    emitSwap Examples.flat_host DEXES (setupEventListeners DEXES)
      Examples.uniswap_ETH_USDT Examples.swap_args Examples.start = (Ok tt, st') /\
    posts st' = (posts Examples.start ++ [post_of Examples.flat_host message])%list.
Proof.
  destruct (lookup DEXES "uniswap") as [d|] eqn:Hd; [|discriminate Hd].
  injection Hd as Hd.
  assert (Hin : In ("uniswap", d) DEXES) by (rewrite <- Hd; left; reflexivity).
  pose proof (proj1 (swap_event_scans_once Examples.flat_host ETH_USDT "uniswap" d
                       Examples.swap_args Examples.start Hin)) as H.
  rewrite <- Hd in H. exact H.
Defined.

(** ** The two variants of the formatter *)

(** C9: the two variants of [formatArbitrageMessage] differ.  On the quotes
    fetched when the uniswap ETH/USDT pool prices ETH at 2000 and the
    sushiswap one at 2100, the TypeScript variant prints the sell line with
    the bid of the sell quote, [$2095.80], the JavaScript one with its ask,
    [$2104.20]. *)
Theorem js_formatter_prints_ask_on_sell_line :
  exists first second st' ev,
    collect Examples.host DEXES ETH_USDT Examples.start = (Ok [first; second], st') /\
    ev = evaluate first [second] /\
    profitable ev = true /\
    eval (Scanner.formatArbitrageMessage Examples.host ETH_USDT
            (lowestAsk ev) (highestBid ev) (buyFee ev) (sellFee ev)
            (profitAfterFees ev) (profitPercentage ev)) st' =
      Ok ("🚨 *PROFITABLE OPPORTUNITY* 🚨" ++ nl ++
          "*Time:* 2025-01-01 00:00:00" ++ nl ++
          "*Pair:* ETH/USDT" ++ nl ++
          "*Buy:* uniswap at $2004.00 (Fee: $6.01)" ++ nl ++
          "*Sell:* sushiswap at $2095.80 (Fee: $6.29)" ++ nl ++
          "*Total Fees:* $12.30" ++ nl ++
          "*Profit After Fees:* $79.50 (3.97%)") /\
    eval (JsVariant.formatArbitrageMessage Examples.host ETH_USDT
            (lowestAsk ev) (highestBid ev) (buyFee ev) (sellFee ev)
            (profitAfterFees ev) (profitPercentage ev)) st' =
      Ok ("🚨 *PROFITABLE OPPORTUNITY* 🚨" ++ nl ++
          "*Time:* 2025-01-01 00:00:00" ++ nl ++
          "*Pair:* ETH/USDT" ++ nl ++
          "*Buy:* uniswap at $2004.00 (Fee: $6.01)" ++ nl ++
          "*Sell:* sushiswap at $2104.20 (Fee: $6.29)" ++ nl ++
          "*Total Fees:* $12.30" ++ nl ++
          "*Profit After Fees:* $79.50 (3.97%)") /\
    eval (Scanner.formatArbitrageMessage Examples.host ETH_USDT
            (lowestAsk ev) (highestBid ev) (buyFee ev) (sellFee ev)
            (profitAfterFees ev) (profitPercentage ev)) st' <>
    eval (JsVariant.formatArbitrageMessage Examples.host ETH_USDT
            (lowestAsk ev) (highestBid ev) (buyFee ev) (sellFee ev)
            (profitAfterFees ev) (profitPercentage ev)) st'.
Proof.
  eexists _, _, _, _. split; [vm_compute; reflexivity|].
  split; [reflexivity|].
  split; [vm_compute; reflexivity|].
  split; [vm_compute; reflexivity|].
  split; [vm_compute; reflexivity|].
  vm_compute. intros H. discriminate H.
Qed.

(** ** Bid and ask of a fetched quote *)

Lemma lit_0_998_eq : lit_0_998 = S754_finite false 8989184856231510 (-53).
Proof. vm_compute. reflexivity. Qed.

Lemma lit_1_002_eq : lit_1_002 = S754_finite false 4512606826625237 (-52).
Proof. vm_compute. reflexivity. Qed.

Lemma of_ratio_sign (n : Z) (d : positive) : 0 <= n -> nonneg_or_nan (of_ratio n d).
Proof.
  intros Hn. destruct n as [|p|p]; [reflexivity| |lia].
  unfold of_ratio.
  pose proof (SFdiv_core_binary_nonneg p d 0 0) as Hq.
  destruct (SFdiv_core_binary prec emax (Zpos p) 0 (Zpos d) 0) as [[q e] l].
  cbn [fst] in Hq. now apply (binary_round_aux_shape false q e l Hq).
Qed.

(** For a mid price that is not negative the bid is at most the ask, and
    for a NaN mid price neither exceeds the other. *)
Lemma spread_not_crossed (mid : number) :
  weakly_bounded mid ->
  (leb lit_0 mid = true -> leb (mul mid lit_0_998) (mul mid lit_1_002) = true) /\
  (nonneg_or_nan mid -> gtb (mul mid lit_0_998) (mul mid lit_1_002) = false).
Proof.
  intros Hb. rewrite lit_0_998_eq, lit_1_002_eq. unfold leb, gtb, mul.
  assert (H1 : 2 ^ 52 <= Zpos 8989184856231510 < 2 ^ 53)
    by (split; [apply Z.leb_le|apply Z.ltb_lt]; vm_compute; reflexivity).
  assert (H2 : 2 ^ 52 <= Zpos 4512606826625237 < 2 ^ 53)
    by (split; [apply Z.leb_le|apply Z.ltb_lt]; vm_compute; reflexivity).
  split.
  - intros H0. now apply (spread_of_nonneg _ _ mid H1 H2 Hb).
  - intros Hs. destruct mid as [s|s| |s m e]; cbn in Hs; subst; try reflexivity.
    now apply (spread_of_nonneg _ _ _ H1 H2 Hb).
Qed.

(** C10: a quote returned by a successful fetch has its bid and ask derived
    from the one mid price, as [mid * 0.998] and [mid * 1.002]; whenever that
    mid price is not negative the bid is at most the ask, and from reserves
    that are not negative the bid never exceeds the ask. *)
Theorem fetched_quote_not_crossed (h : Host) (dexes : DexConfigs)
    (dexName : string) (symbol : TokenPair) (st st' : State) (q : PriceData) :
  fetchDexPrice h dexes dexName symbol st = (Ok (Some q), st') ->
  exists reserve0 reserve1,
    raw_reserves h dexes dexName symbol = Some (reserve0, reserve1) /\
    bid q = mul (mid_price symbol reserve0 reserve1) (of_ratio 998 1000) /\
    ask q = mul (mid_price symbol reserve0 reserve1) (of_ratio 1002 1000) /\
    (leb (of_Z 0) (mid_price symbol reserve0 reserve1) = true ->
     leb (bid q) (ask q) = true) /\
    (0 <= reserve0 -> 0 <= reserve1 -> gtb (bid q) (ask q) = false).
Proof.
  intros E.
  destruct (fetchDexPrice_run h dexes dexName symbol st) as (st1 & E1 & _).
  rewrite E in E1.
  destruct (raw_reserves h dexes dexName symbol) as [[reserve0 reserve1]|];
    [|discriminate E1].
  injection E1 as -> _.
  exists reserve0, reserve1. split; [reflexivity|].
  split; [reflexivity|]. split; [reflexivity|].
  cbn [bid ask quote_of].
  assert (Hb : weakly_bounded (mid_price symbol reserve0 reserve1))
    by apply SFdiv_shape.
  destruct (spread_not_crossed _ Hb) as [Hle Hgt].
  split; [exact Hle|].
  intros H0 H1. apply Hgt. unfold mid_price, Number_formatUnits.
  apply SFdiv_shape; now apply of_ratio_sign.
Qed.

Lemma fetched_quote_not_crossed_witness :
  exists q st',
    fetchDexPrice Examples.host DEXES "uniswap" ETH_USDT Examples.start =
      (Ok (Some q), st') /\
    leb (bid q) (ask q) = true.
Proof.
  destruct (fetchDexPrice_run Examples.host DEXES "uniswap" ETH_USDT Examples.start)
    as (st' & E & _).
  destruct (fetched_quote_not_crossed Examples.host DEXES "uniswap" ETH_USDT
              Examples.start st' _ E) as (reserve0 & reserve1 & Hr & _ & _ & Hle & _).
  injection Hr as <- <-.
  eexists _, st'. split; [exact E|]. apply Hle. vm_compute. reflexivity.
Defined.

(** * Further properties *)

Import Behaviour.
Local Close Scope string_scope.
Local Close Scope eff_scope.

(** ** The order of [<] on binary64 values *)

Lemma SFltb_irrefl (x : number) : ltb x x = false.
Proof.
  destruct x as [s|s| |s m e]; cbn; try reflexivity.
  - destruct s; reflexivity.
  - unfold ltb, SFltb, SFcompare. rewrite Z.compare_refl, Pcompare_refl.
    destruct s; reflexivity.
Qed.

Lemma finite_compare_trans (e1 e2 e3 : Z) (m1 m2 m3 : positive) (c : comparison) :
  match Z.compare e1 e2 with
  | Lt => Lt | Gt => Gt | Eq => Pos.compare_cont Eq m1 m2
  end = c ->
  match Z.compare e2 e3 with
  | Lt => Lt | Gt => Gt | Eq => Pos.compare_cont Eq m2 m3
  end = c ->
  c <> Eq ->
  match Z.compare e1 e3 with
  | Lt => Lt | Gt => Gt | Eq => Pos.compare_cont Eq m1 m3
  end = c.
Proof.
  rewrite !Pos.compare_cont_spec. cbn [Pos.switch_Eq].
  intros H12 H23 Hc.
  destruct (Z.compare_spec e1 e2), (Z.compare_spec e2 e3), (Z.compare_spec e1 e3);
    try lia; subst; try congruence.
  destruct (Pos.compare_spec m1 m2), (Pos.compare_spec m2 m3), (Pos.compare_spec m1 m3);
    cbn in *; subst; try congruence; try lia.
Qed.

Lemma SFltb_trans (x y z : number) :
  ltb x y = true -> ltb y z = true -> ltb x z = true.
Proof.
  unfold ltb, SFltb.
  destruct x as [sx|sx| |sx mx ex], y as [sy|sy| |sy my ey], z as [sz|sz| |sz mz ez];
    cbn [SFcompare];
    try discriminate; try reflexivity;
    try (destruct sx, sy, sz; cbn; intros; (discriminate || reflexivity)).
  destruct sx, sy, sz; try (intros; (discriminate || reflexivity)).
  - (* three negative floats *)
    intros H12 H23.
    assert (K12 : match Z.compare ex ey with
                  | Lt => Lt | Gt => Gt | Eq => Pos.compare_cont Eq mx my end = Gt).
    { destruct (Z.compare ex ey); try discriminate; try reflexivity.
      destruct (Pos.compare_cont Eq mx my); try discriminate; reflexivity. }
    assert (K23 : match Z.compare ey ez with
                  | Lt => Lt | Gt => Gt | Eq => Pos.compare_cont Eq my mz end = Gt).
    { destruct (Z.compare ey ez); try discriminate; try reflexivity.
      destruct (Pos.compare_cont Eq my mz); try discriminate; reflexivity. }
    pose proof (finite_compare_trans ex ey ez mx my mz Gt K12 K23 ltac:(discriminate)) as K.
    destruct (Z.compare ex ez); try discriminate K; try reflexivity.
    rewrite K. reflexivity.
  - (* three positive floats *)
    intros H12 H23.
    assert (K12 : match Z.compare ex ey with
                  | Lt => Lt | Gt => Gt | Eq => Pos.compare_cont Eq mx my end = Lt).
    { destruct (Z.compare ex ey); try discriminate; try reflexivity.
      destruct (Pos.compare_cont Eq mx my); try discriminate; reflexivity. }
    assert (K23 : match Z.compare ey ez with
                  | Lt => Lt | Gt => Gt | Eq => Pos.compare_cont Eq my mz end = Lt).
    { destruct (Z.compare ey ez); try discriminate; try reflexivity.
      destruct (Pos.compare_cont Eq my mz); try discriminate; reflexivity. }
    pose proof (finite_compare_trans ex ey ez mx my mz Lt K12 K23 ltac:(discriminate)) as K.
    rewrite K. reflexivity.
Qed.

(** ** What [reduce] selects *)

Section Extremes.

Context {A : Type} (better : A -> A -> bool).
Hypothesis better_irrefl : forall x, better x x = false.
Hypothesis better_trans :
  forall x y z, better x y = true -> better y z = true -> better x z = true.

Lemma fold_unbeaten (l seen : list A) (acc : A) :
  In acc seen ->
  (forall p, In p seen -> better p acc = false) ->
  forall p, In p (seen ++ l) -> better p (fold_left (keep_better better) l acc) = false.
Proof.
  revert seen acc. induction l as [|c l IH]; intros seen acc Hin Hseen p Hp.
  - rewrite app_nil_r in Hp. now apply Hseen.
  - cbn [fold_left].
    apply (IH (seen ++ [c]) (keep_better better acc c)).
    + unfold keep_better. apply in_or_app.
      destruct (better c acc); [right; now left|now left].
    + intros p' Hp'. unfold keep_better.
      apply in_app_or in Hp'. destruct Hp' as [Hp'|[<-|[]]].
      * destruct (better c acc) eqn:Hc; [|now apply Hseen].
        destruct (better p' c) eqn:Hpc; [|reflexivity].
        rewrite <- (Hseen p' Hp'). symmetry. now apply (better_trans p' c acc).
      * destruct (better c acc) eqn:Hc; [apply better_irrefl|exact Hc].
    + rewrite <- app_assoc. exact Hp.
Qed.

Lemma reduce_unbeaten (first : A) (rest : list A) :
  In (reduce (keep_better better) first rest) (first :: rest) /\
  forall p, In p (first :: rest) ->
            better p (reduce (keep_better better) first rest) = false.
Proof.
  split; [apply fold_stays_inside|].
  intros p Hp. unfold reduce.
  apply (fold_unbeaten rest [first] first); [now left| |exact Hp].
  intros p' [<-|[]]. apply better_irrefl.
Qed.

End Extremes.

(** X1: the quote bought on is one of the quotes and none has a strictly
    lower ask; the quote sold on is one of them and none has a strictly higher
    bid.  A NaN ask or bid is never strictly lower or higher. *)
Theorem evaluate_selects_extremes (first : PriceData) (rest : list PriceData) :
  In (lowestAsk (evaluate first rest)) (first :: rest) /\
  (forall p, In p (first :: rest) ->
             ltb (ask p) (ask (lowestAsk (evaluate first rest))) = false) /\
  In (highestBid (evaluate first rest)) (first :: rest) /\
  (forall p, In p (first :: rest) ->
             gtb (bid p) (bid (highestBid (evaluate first rest))) = false).
Proof.
  destruct (reduce_unbeaten (fun curr min : PriceData => ltb (ask curr) (ask min))
              (fun x => SFltb_irrefl (ask x))
              (fun x y z => SFltb_trans (ask x) (ask y) (ask z)) first rest) as [Ha1 Ha2].
  destruct (reduce_unbeaten (fun curr max : PriceData => gtb (bid curr) (bid max))
              (fun x => SFltb_irrefl (bid x))
              (fun x y z H1 H2 => SFltb_trans (bid z) (bid y) (bid x) H2 H1) first rest)
    as [Hb1 Hb2].
  repeat split; assumption.
Qed.

(** ** Signs of sums, products and quotients *)

Lemma fin_signed (sx : bool) (M E : Z) : signed sx (fin sx M E).
Proof.
  unfold fin. destruct (M =? 0); [reflexivity|]. destruct (E <=? 971); reflexivity.
Qed.

Lemma binary_round_aux_signed (sx : bool) (m e : Z) (l : location) :
  0 <= m -> signed sx (binary_round_aux prec emax sx m e l).
Proof.
  intros Hm. destruct (binary_round_aux_fin sx m e l Hm) as (M & E & R & _).
  rewrite R. apply fin_signed.
Qed.

Lemma binary_round_signed (sx : bool) (m : positive) (e : Z) :
  signed sx (binary_round prec emax sx m e).
Proof.
  unfold binary_round.
  destruct (shl_align m e (fexp prec emax (Zpos (digits2_pos m) + e))) as [mz ez].
  apply binary_round_aux_signed. lia.
Qed.

Lemma SFmul_signed (sx sy : bool) (mx my : positive) (ex ey : Z) :
  signed (xorb sx sy) (mul (S754_finite sx mx ex) (S754_finite sy my ey)).
Proof. cbn [mul SFmul]. apply binary_round_aux_signed. lia. Qed.

Lemma SFdiv_signed (sx sy : bool) (mx my : positive) (ex ey : Z) :
  signed (xorb sx sy) (div (S754_finite sx mx ex) (S754_finite sy my ey)).
Proof.
  unfold div. cbn [SFdiv].
  pose proof (SFdiv_core_binary_nonneg mx my ex ey) as Hq.
  destruct (SFdiv_core_binary prec emax (Zpos mx) ex (Zpos my) ey) as [[mz ez] lz].
  cbn [fst] in Hq. now apply binary_round_aux_signed.
Qed.

Lemma signed_true_nonpos (x : number) : signed true x -> nonpos_or_nan x.
Proof. destruct x; cbn; auto. Qed.

Lemma signed_false_nonneg (x : number) : signed false x -> nonneg_or_nan x.
Proof. destruct x; cbn; auto; contradiction. Qed.

Lemma mul_nonneg (x y : number) :
  nonneg_or_nan x -> nonneg_or_nan y -> nonneg_or_nan (mul x y).
Proof.
  destruct x as [sx|sx| |sx mx ex], y as [sy|sy| |sy my ey]; cbn;
    intros; subst; try reflexivity.
  apply signed_false_nonneg. apply (SFmul_signed false false).
Qed.

Lemma sub_nonpos (x y : number) :
  nonpos_or_nan x -> nonneg_or_nan y -> nonpos_or_nan (sub x y).
Proof.
  destruct x as [sx|sx| |sx mx ex], y as [sy|sy| |sy my ey]; cbn [nonpos_or_nan nonneg_or_nan];
    intros Hx Hy; subst; try exact I; try reflexivity.
  - destruct sx; exact I.
  - unfold sub. cbn [SFsub cond_Zopp].
    set (a := fst (shl_align mx ex (Z.min ex ey))).
    set (b := fst (shl_align my ey (Z.min ex ey))).
    change (Z.opp (Zpos a) - Zpos b) with (Zneg (a + b)).
    cbn [binary_normalize]. apply signed_true_nonpos, binary_round_signed.
Qed.

Lemma div_nonpos (x y : number) :
  nonpos_or_nan x -> nonneg_or_nan y -> nonpos_or_nan (div x y).
Proof.
  destruct x as [sx|sx| |sx mx ex], y as [sy|sy| |sy my ey]; cbn [nonpos_or_nan nonneg_or_nan];
    intros Hx Hy; subst; try exact I; try reflexivity.
  apply signed_true_nonpos. apply (SFdiv_signed true false).
Qed.

Lemma lit_100_eq : lit_100 = S754_finite false 7036874417766400 (-46).
Proof. vm_compute. reflexivity. Qed.

Lemma mul_100_nonpos (x : number) : nonpos_or_nan x -> nonpos_or_nan (mul x lit_100).
Proof.
  rewrite lit_100_eq.
  destruct x as [sx|sx| |sx mx ex]; cbn [nonpos_or_nan]; intros Hx; subst;
    try exact I; try reflexivity.
  apply signed_true_nonpos. apply (SFmul_signed true false).
Qed.

Lemma nonpos_not_positive (x : number) : nonpos_or_nan x -> gtb x lit_0 = false.
Proof. destruct x as [s|s| |s m e]; cbn; intros H; subst; reflexivity. Qed.

(** ** The gross profit of buying and selling on one quote *)

Lemma pos_iter_xO (m d : positive) : Zpos (Pos.iter xO m d) = Zpos m * 2 ^ Zpos d.
Proof.
  change (Pos.iter xO m d) with (shift_pos d m).
  rewrite shift_pos_correct. change (Z.pow_pos 2 d) with (2 ^ Zpos d). lia.
Qed.

Lemma shl_align_fst (m : positive) (e ez : Z) :
  ez <= e -> Zpos (fst (shl_align m e ez)) = Zpos m * 2 ^ (e - ez).
Proof.
  intros H. unfold shl_align.
  destruct (ez - e) as [|d|d] eqn:Hd; try lia; cbn [fst].
  - replace (e - ez) with 0 by lia. lia.
  - rewrite pos_iter_xO. f_equal. f_equal. lia.
Qed.

Lemma mul_canonical (sx sc : bool) (m mc : positive) (e ec : Z) :
  2 ^ 52 <= Zpos mc < 2 ^ 53 ->
  exists M E,
    mul (S754_finite sx m e) (S754_finite sc mc ec) = fin (xorb sx sc) M E /\
    canonical M E.
Proof.
  intros Hc. cbn [mul SFmul].
  pose proof (product_digits mc mc m mc Hc) as Hd.
  pose proof (Zdigits2_pos (Zpos m) ltac:(lia)) as Hdpos.
  destruct (binary_round_aux_fin (xorb sx sc) (Zpos (m * mc)) (e + ec) loc_Exact ltac:(lia))
    as (M & E & R & HM & HE & _ & _ & Hcan).
  exists M, E. split; [exact R|]. split; [exact HM|]. split; [exact HE|].
  apply Hcan; [lia|]. rewrite fexp_unfold. lia.
Qed.

Lemma canonical_sub_nonpos (Ma Ea Mb Eb : Z) :
  canonical Ma Ea -> canonical Mb Eb ->
  SFleb (fin false Ma Ea) (fin false Mb Eb) = true ->
  nonpos_or_nan (sub (fin false Ma Ea) (fin false Mb Eb)).
Proof.
  intros (HMa & HEa & Hca) (HMb & HEb & Hcb). unfold fin.
  destruct (Z.eqb_spec Ma 0) as [->|HMa0].
  { destruct (Mb =? 0); [intros _; exact I|].
    destruct (Eb <=? 971); intros _; reflexivity. }
  destruct (Z.eqb_spec Mb 0) as [->|HMb0].
  { destruct (Ea <=? 971); intros H; discriminate H. }
  destruct (Z.leb_spec Ea 971) as [Ha|Ha]; destruct (Z.leb_spec Eb 971) as [Hb|Hb];
    try (intros H; discriminate H); try (intros _; reflexivity); try (intros _; exact I).
  unfold SFleb, SFcompare. intros Hle.
  unfold sub. cbn [SFsub cond_Zopp].
  pose proof (shl_align_fst (Z.to_pos Ma) Ea (Z.min Ea Eb) ltac:(lia)) as Va.
  pose proof (shl_align_fst (Z.to_pos Mb) Eb (Z.min Ea Eb) ltac:(lia)) as Vb.
  rewrite Z2Pos.id in Va, Vb by lia.
  assert (Hdiff : Zpos (fst (shl_align (Z.to_pos Ma) Ea (Z.min Ea Eb))) -
                  Zpos (fst (shl_align (Z.to_pos Mb) Eb (Z.min Ea Eb))) <= 0).
  { rewrite Va, Vb.
    destruct (Z.compare_spec Ea Eb) as [Heq|Hlt|Hgt]; [| |discriminate Hle].
    - subst Eb. rewrite Z.min_id, Z.sub_diag, Z.pow_0_r, !Z.mul_1_r.
      rewrite Pos.compare_cont_spec in Hle. cbn [Pos.switch_Eq] in Hle.
      destruct (Pos.compare_spec (Z.to_pos Ma) (Z.to_pos Mb)) as [He|Hl|Hg];
        [| |discriminate Hle].
      + apply (f_equal Zpos) in He. rewrite !Z2Pos.id in He by lia. lia.
      + apply Pos2Z.pos_lt_pos in Hl. rewrite !Z2Pos.id in Hl by lia. lia.
    - replace (Z.min Ea Eb) with Ea by lia.
      rewrite Z.sub_diag, Z.pow_0_r, Z.mul_1_r.
      destruct Hcb as [|Hcb]; [lia|].
      assert (2 ^ 1 <= 2 ^ (Eb - Ea)) by (apply Z.pow_le_mono_r; lia).
      change (2 ^ 1) with 2 in H. change (2 ^ 53) with (2 ^ 52 * 2) in HMa. nia. }
  destruct (Zpos (fst (shl_align (Z.to_pos Ma) Ea (Z.min Ea Eb))) -
            Zpos (fst (shl_align (Z.to_pos Mb) Eb (Z.min Ea Eb)))) as [|p|p];
    [exact I|lia|].
  cbn [binary_normalize]. apply signed_true_nonpos, binary_round_signed.
Qed.

(** The bid of a quote minus its ask is never positive. *)
Lemma spread_gross_nonpos (mid : number) :
  weakly_bounded mid -> nonneg_or_nan mid ->
  nonpos_or_nan (sub (mul mid lit_0_998) (mul mid lit_1_002)).
Proof.
  intros Hb Hs. rewrite lit_0_998_eq, lit_1_002_eq.
  assert (H1 : 2 ^ 52 <= Zpos 8989184856231510 < 2 ^ 53)
    by (split; [apply Z.leb_le|apply Z.ltb_lt]; vm_compute; reflexivity).
  assert (H2 : 2 ^ 52 <= Zpos 4512606826625237 < 2 ^ 53)
    by (split; [apply Z.leb_le|apply Z.ltb_lt]; vm_compute; reflexivity).
  destruct mid as [s|s| |s m e]; cbn in Hs; subst; try exact I.
  destruct Hb as [Hd He].
  pose proof (proj1 (spread_ordered _ _ H1 H2 m e Hd He)) as Hle.
  destruct (mul_canonical false false m 8989184856231510 e (-53) H1) as (Ma & Ea & Ra & Ca).
  destruct (mul_canonical false false m 4512606826625237 e (-52) H2) as (Mb & Eb & Rb & Cb).
  unfold mul in Ra, Rb. unfold mul. rewrite Ra, Rb in *. cbn [xorb] in *.
  now apply canonical_sub_nonpos.
Qed.

Lemma fetched_mid_shape (symbol : TokenPair) (reserve0 reserve1 : Z) :
  0 <= reserve0 -> 0 <= reserve1 ->
  weakly_bounded (mid_price symbol reserve0 reserve1) /\
  nonneg_or_nan (mid_price symbol reserve0 reserve1).
Proof.
  intros H0 H1. unfold mid_price, Number_formatUnits.
  split; [apply SFdiv_shape|apply SFdiv_shape; now apply of_ratio_sign].
Qed.

Lemma lit_0_003_nonneg : nonneg_or_nan lit_0_003.
Proof. vm_compute. reflexivity. Qed.

Lemma lit_1_002_nonneg : nonneg_or_nan lit_1_002.
Proof. vm_compute. reflexivity. Qed.

Lemma lit_0_998_nonneg : nonneg_or_nan lit_0_998.
Proof. vm_compute. reflexivity. Qed.

(** Buying and selling on the same fetched quote is never profitable. *)
Lemma round_trip_on_one_quote (dexName : string) (symbol : TokenPair)
    (reserve0 reserve1 t : Z) (first : PriceData) (rest : list PriceData) :
  0 <= reserve0 -> 0 <= reserve1 ->
  lowestAsk (evaluate first rest) = quote_of dexName symbol reserve0 reserve1 t ->
  highestBid (evaluate first rest) = quote_of dexName symbol reserve0 reserve1 t ->
  profitable (evaluate first rest) = false.
Proof.
  intros H0 H1 Hlo Hhi.
  destruct (fetched_mid_shape symbol reserve0 reserve1 H0 H1) as [Hb Hs].
  set (mid := mid_price symbol reserve0 reserve1) in *.
  unfold profitable. apply nonpos_not_positive.
  change (profitPercentage (evaluate first rest))
    with (mul (div (sub (sub (sub (bid (highestBid (evaluate first rest)))
                                  (ask (lowestAsk (evaluate first rest))))
                             (mul (ask (lowestAsk (evaluate first rest)))
                                  (tradingFee (lowestAsk (evaluate first rest)))))
                        (mul (bid (highestBid (evaluate first rest)))
                             (tradingFee (highestBid (evaluate first rest)))))
                   (ask (lowestAsk (evaluate first rest))))
              lit_100).
  rewrite Hlo, Hhi. cbn [bid ask tradingFee quote_of]. fold mid.
  apply mul_100_nonpos, div_nonpos; [|apply mul_nonneg; [exact Hs|apply lit_1_002_nonneg]].
  apply sub_nonpos;
    [|apply mul_nonneg; [apply mul_nonneg; [exact Hs|apply lit_0_998_nonneg]
                        |apply lit_0_003_nonneg]].
  apply sub_nonpos;
    [|apply mul_nonneg; [apply mul_nonneg; [exact Hs|apply lit_1_002_nonneg]
                        |apply lit_0_003_nonneg]].
  now apply spread_gross_nonpos.
Qed.

Lemma mul_100_positive (d : number) :
  gtb (mul d lit_100) lit_0 = true -> gtb d lit_0 = true.
Proof.
  rewrite lit_100_eq.
  destruct d as [s|s| |s m e]; try (intros H; discriminate H).
  - destruct s; [intros H; discriminate H|reflexivity].
  - destruct s; [|reflexivity].
    intros H.
    pose proof (nonpos_not_positive _
                  (signed_true_nonpos _ (SFmul_signed true false m 7036874417766400 e (-46))))
      as K.
    cbn [xorb] in K. rewrite K in H. discriminate H.
Qed.

Lemma div_positive (x y : number) :
  nonneg_or_nan y -> gtb (div x y) lit_0 = true -> gtb x lit_0 = true.
Proof.
  destruct x as [sx|sx| |sx mx ex], y as [sy|sy| |sy my ey]; cbn [nonneg_or_nan];
    intros Hy; subst; try (intros H; discriminate H);
    try (destruct sx; intros H; (discriminate H || reflexivity)).
  destruct sx; [|reflexivity].
  intros H.
  pose proof (nonpos_not_positive _
                (signed_true_nonpos _ (SFdiv_signed true false mx my ex ey))) as K.
  cbn [xorb] in K. rewrite K in H. discriminate H.
Qed.

(** * Further properties of the scanner *)

Local Open Scope string_scope.
Local Open Scope eff_scope.

(** ** The limiter *)

Lemma applyRateLimit_slot (st : State) :
  applyRateLimit st =
    (Ok tt, {| lastCallTime := next_slot st; now := next_slot st;
               console := console st; posts := posts st |}).
Proof.
  rewrite applyRateLimit_run. unfold next_slot. cbv zeta.
  destruct (Z.ltb_spec (now st - lastCallTime st) RATE_LIMIT_DELAY) as [H|H].
  - replace (Z.max (now st) (lastCallTime st + RATE_LIMIT_DELAY))
      with (now st + (RATE_LIMIT_DELAY - (now st - lastCallTime st))) by lia.
    reflexivity.
  - replace (Z.max (now st) (lastCallTime st + RATE_LIMIT_DELAY)) with (now st) by lia.
    reflexivity.
Qed.



(** ** Notifications *)

(** X3: [sendTelegramMessage] never throws: it makes exactly one post,
    carrying the message; a response other than 200 and an error of the
    request each leave one line on the console and nothing else; the clock
    and the limiter are not touched. *)
Theorem sendTelegramMessage_never_throws (h : Host) (message : string) (st : State) :
  exists st',
    sendTelegramMessage h message st = (Ok tt, st') /\
    posts st' = (posts st ++ [post_of h message])%list /\
    console st' =
      (console st ++
       match axios_post h (fst (post_of h message)) (snd (post_of h message)) with
       | Ok (status, data) =>
           if (status =? 200)%Z then []
           else [("Failed to send Telegram message: " ++ data)%string]
       | Throw e => [("Error sending Telegram message: " ++ e)%string]
       end)%list /\
    now st' = now st /\ lastCallTime st' = lastCallTime st.
Proof.
  unfold sendTelegramMessage, try_catch, bind, record_post, await, console_log, ret,
    post_of, telegram_url.
  cbn [fst snd lastCallTime now console posts].
  destruct (axios_post h _ _) as [[status data]|e]; cbn.
  - destruct (status =? 200)%Z; cbn; eexists; (split; [reflexivity|]); cbn;
      rewrite ?app_nil_r; auto.
  - eexists; (split; [reflexivity|]); cbn; auto.
Qed.

(** ** Fees and quotes *)

Lemma logMessage_line (h : Host) (type : LogType) (message : string) (st : State) :
  logMessage h type message st =
    (Ok tt, {| lastCallTime := lastCallTime st; now := now st;
               console := (console st ++ [log_line h (now st) type message])%list;
               posts := posts st |}).
Proof. reflexivity. Qed.

(** X4: [fetchTradingFee] returns 0.003 on every path, whatever the factory
    answers: it takes one limiter slot, never throws, and logs one error
    line exactly when the source is not configured or the factory call
    throws. *)
Theorem fetchTradingFee_always_default (h : Host) (dexes : DexConfigs)
    (dexName pairAddress : string) (st : State) :
  fetchTradingFee h dexes dexName pairAddress st =
    (Ok (of_ratio 3 1000),
     {| lastCallTime := next_slot st; now := next_slot st;
        console :=
          (console st ++
           match fee_lookup_error h dexes dexName with
           | None => []
           | Some e =>
               [log_line h (next_slot st) error
                  ("Error fetching fee for " ++ dexName ++ " " ++ pairAddress ++ ": " ++ e)]
           end)%list;
        posts := posts st |}).
Proof.
  unfold fetchTradingFee, try_catch, fee_lookup_error.
  rewrite (bind_Ok _ _ _ _ _ (applyRateLimit_slot st)).
  unfold deref. destruct (lookup dexes dexName) as [d|].
  - unfold bind at 1, ret at 1. unfold bind at 1, await.
    destruct (feeTo h (factory d)) as [a|e].
    + unfold ret. cbn [console]. rewrite app_nil_r.
      destruct (String.eqb a ZeroAddress); reflexivity.
    + rewrite (bind_Ok _ _ _ _ _ (logMessage_line _ _ _ _)). reflexivity.
  - unfold bind at 1, throw.
    rewrite (bind_Ok _ _ _ _ _ (logMessage_line _ _ _ _)). reflexivity.
Qed.

Lemma fetchDexPrice_failed (h : Host) (dexes : DexConfigs) (dexName : string)
    (symbol : TokenPair) (st : State) (e : string) :
  pool_read_error h dexes dexName symbol = Some e ->
  fetchDexPrice h dexes dexName symbol st =
    (Ok None,
     {| lastCallTime := next_slot st; now := next_slot st;
        console :=
          (console st ++
           [log_line h (next_slot st) error
              ("Error fetching " ++ dexName ++ " " ++ pair_name symbol ++ ": " ++ e)])%list;
        posts := posts st |}).
Proof.
  unfold pool_read_error, fetchDexPrice, try_catch.
  rewrite (bind_Ok _ _ _ _ _ (applyRateLimit_slot st)).
  unfold deref. destruct (lookup dexes dexName) as [d|].
  2:{ intros [= <-]. unfold bind at 1, throw.
      rewrite (bind_Ok _ _ _ _ _ (logMessage_line _ _ _ _)). reflexivity. }
  unfold bind at 1, ret at 1. unfold bind at 1, await at 1.
  destruct (getReserves h (contract d (pairs d symbol))) as [[[reserve0 reserve1] ts]|e'].
  2:{ intros [= <-].
      rewrite (bind_Ok _ _ _ _ _ (logMessage_line _ _ _ _)). reflexivity. }
  unfold bind at 1, await at 1.
  destruct (token0 h (contract d (pairs d symbol))) as [t0|e'].
  - intros H. discriminate H.
  - intros [= <-].
    rewrite (bind_Ok _ _ _ _ _ (logMessage_line _ _ _ _)). reflexivity.
Qed.

Lemma fetchDexPrice_succeeded (h : Host) (dexes : DexConfigs) (dexName : string)
    (symbol : TokenPair) (st : State) (d : DexConfig) (reserve0 reserve1 : Z) :
  lookup dexes dexName = Some d ->
  raw_reserves h dexes dexName symbol = Some (reserve0, reserve1) ->
  fetchDexPrice h dexes dexName symbol st =
    (Ok (Some (quote_of dexName symbol reserve0 reserve1
                 (next_slot st + RATE_LIMIT_DELAY))),
     {| lastCallTime := next_slot st + RATE_LIMIT_DELAY;
        now := next_slot st + RATE_LIMIT_DELAY;
        console :=
          (console st ++
           match fee_lookup_error h dexes dexName with
           | None => []
           | Some e =>
               [log_line h (next_slot st + RATE_LIMIT_DELAY) error
                  ("Error fetching fee for " ++ dexName ++ " " ++ pairs d symbol ++ ": " ++ e)]
           end)%list;
        posts := posts st |}).
Proof.
  intros Hd. unfold raw_reserves, fetchDexPrice, try_catch. rewrite Hd.
  rewrite (bind_Ok _ _ _ _ _ (applyRateLimit_slot st)).
  unfold deref. unfold bind at 1, ret at 1. unfold bind at 1, await at 1.
  destruct (getReserves h (contract d (pairs d symbol))) as [[[r0 r1] ts]|e'];
    [|intros H; discriminate H].
  unfold bind at 1, await at 1.
  destruct (token0 h (contract d (pairs d symbol))) as [t0|e'];
    [|intros H; discriminate H].
  intros [= <- <-].
  destruct (decimals symbol) as [decimals0 decimals1] eqn:Ed.
  rewrite (bind_Ok _ _ _ _ _ (fetchTradingFee_always_default _ _ _ _ _)).
  assert (Hs1 : next_slot {| lastCallTime := next_slot st; now := next_slot st;
                             console := console st; posts := posts st |} =
                next_slot st + RATE_LIMIT_DELAY).
  { unfold next_slot at 1. cbn [now lastCallTime]. unfold RATE_LIMIT_DELAY. lia. }
  rewrite !Hs1.
  unfold bind, Date_now, ret. cbn [now lastCallTime console posts].
  unfold quote_of, mid_price. rewrite Ed. reflexivity.
Qed.

Lemma pool_read_cases (h : Host) (dexes : DexConfigs) (dexName : string)
    (symbol : TokenPair) :
  (exists e, pool_read_error h dexes dexName symbol = Some e /\
             raw_reserves h dexes dexName symbol = None) \/
  (exists d reserve0 reserve1 blockTimestampLast,
     lookup dexes dexName = Some d /\
     getReserves h (contract d (pairs d symbol)) =
       Ok (reserve0, reserve1, blockTimestampLast) /\
     pool_read_error h dexes dexName symbol = None /\
     raw_reserves h dexes dexName symbol = Some (reserve0, reserve1)).
Proof.
  unfold pool_read_error, raw_reserves.
  destruct (lookup dexes dexName) as [d|]; [|left; eexists; split; reflexivity].
  destruct (getReserves h (contract d (pairs d symbol))) as [[[r0 r1] ts]|e] eqn:Hr;
    [|left; eexists; split; reflexivity].
  destruct (token0 h (contract d (pairs d symbol))) as [t0|e];
    [|left; eexists; split; reflexivity].
  right. exists d, r0, r1, ts. repeat split; try reflexivity. exact Hr.
Qed.

(** X5: a fetch whose source is not configured, or one of whose pool reads
    throws, returns [null] without throwing: it takes one limiter slot, logs
    exactly one error line carrying the message of the error, and makes no
    post. *)
Theorem failed_fetch_returns_null (h : Host) (dexes : DexConfigs)
    (dexName : string) (symbol : TokenPair) (st : State) (e : string) :
  pool_read_error h dexes dexName symbol = Some e ->
  exists st',
    fetchDexPrice h dexes dexName symbol st = (Ok None, st') /\
    console st' =
      (console st ++
       [log_line h (now st') error
          ("Error fetching " ++ dexName ++ " " ++ pair_name symbol ++ ": " ++ e)])%list /\
    posts st' = posts st /\
    now st' = next_slot st /\ lastCallTime st' = now st' /\
    (lookup dexes dexName = None -> e = TypeError_undefined h).
Proof.
  intros He. eexists. split; [apply (fetchDexPrice_failed _ _ _ _ _ _ He)|].
  cbn [console posts now lastCallTime]. repeat split; try reflexivity.
  intros Hl. unfold pool_read_error in He. rewrite Hl in He. now injection He.
Qed.

Lemma failed_fetch_returns_null_witness :
  exists st',
    fetchDexPrice Examples.partial_host Examples.three_dexes "thirdswap" ETH_USDT
      Examples.start = (Ok None, st') /\
    posts st' = posts Examples.start.
Proof.
  destruct (failed_fetch_returns_null Examples.partial_host Examples.three_dexes
              "thirdswap" ETH_USDT Examples.start "could not detect network" eq_refl)
    as (st' & E & _ & P & _).
  exists st'. split; [exact E|exact P].
Defined.

(** X6: a fetch that returns a quote has passed the limiter twice, the fee
    lookup waiting for the slot the price read has just taken: the time the
    limiter holds afterwards is at least [RATE_LIMIT_DELAY] after the start
    of the fetch and at least two delays after the time it held before.  The
    quote is stamped no earlier than that time and no later than the end of
    the fetch, and carries the name of the source, the pair and the fee
    0.003. *)
Theorem fetched_quote_took_a_delay (h : Host) (dexes : DexConfigs)
    (dexName : string) (symbol : TokenPair) (st st' : State) (q : PriceData) :
  fetchDexPrice h dexes dexName symbol st = (Ok (Some q), st') ->
  now st + RATE_LIMIT_DELAY <= lastCallTime st' /\
  lastCallTime st + 2 * RATE_LIMIT_DELAY <= lastCallTime st' /\
  lastCallTime st' <= timestamp q <= now st' /\
  exchange q = dexName /\ Scanner.symbol q = symbol /\
  tradingFee q = of_ratio 3 1000 /\
  posts st' = posts st.
Proof.
  intros E.
  destruct (pool_read_cases h dexes dexName symbol)
    as [(e & He & _)|(d & r0 & r1 & ts & Hd & _ & _ & Hr)].
  - rewrite (fetchDexPrice_failed _ _ _ _ _ _ He) in E. discriminate E.
  - rewrite (fetchDexPrice_succeeded _ _ _ _ _ _ _ _ Hd Hr) in E.
    injection E as <- <-. cbn [now lastCallTime posts timestamp exchange tradingFee quote_of].
    repeat split; try reflexivity; unfold next_slot, RATE_LIMIT_DELAY; lia.
Qed.

Lemma fetched_quote_took_a_delay_witness :
  exists q st',
    fetchDexPrice Examples.host DEXES "uniswap" ETH_USDT Examples.start =
      (Ok (Some q), st') /\
    now Examples.start + RATE_LIMIT_DELAY <= timestamp q.
Proof.
  destruct (fetchDexPrice_run Examples.host DEXES "uniswap" ETH_USDT Examples.start)
    as (st' & E & _).
  destruct (fetched_quote_took_a_delay Examples.host DEXES "uniswap" ETH_USDT
              Examples.start st' _ E) as (Hn & _ & (Ht & _) & _).
  eexists _, st'. split; [exact E|]. exact (Z.le_trans _ _ _ Hn Ht).
Defined.

(** ** Profitability *)

(** X7: buying and selling on one and the same fetched quote is never
    reported as an opportunity.  When the chain's reserves are not negative
    and the evaluator picks a quote returned by [fetchDexPrice] both as the
    lowest ask and as the highest bid, the net profit percentage is not
    positive and the scan sends a "MARKET UPDATE" or "SWAP DETECTED"
    message. *)
Theorem same_quote_never_profitable (h : Host) (dexes : DexConfigs)
    (dexName : string) (symbol : TokenPair) (st st' : State) (q : PriceData)
    (first : PriceData) (rest : list PriceData) :
  unsigned_reserves h ->
  fetchDexPrice h dexes dexName symbol st = (Ok (Some q), st') ->
  lowestAsk (evaluate first rest) = q ->
  highestBid (evaluate first rest) = q ->
  profitable (evaluate first rest) = false /\
  forall triggerEvent st0,
    exists text st1,
      report h symbol (evaluate first rest) triggerEvent st0 = (Ok tt, st1) /\
      posts st1 =
        (posts st0 ++
         [post_of h ((if triggerEvent then "📊 *SWAP DETECTED*"
                      else "📊 *MARKET UPDATE*") ++ text)])%list.
Proof.
  intros Hu E Hlo Hhi.
  assert (Hp : profitable (evaluate first rest) = false).
  { destruct (pool_read_cases h dexes dexName symbol)
      as [(e & He & _)|(d & r0 & r1 & ts & Hd & Hg & _ & Hr)].
    - rewrite (fetchDexPrice_failed _ _ _ _ _ _ He) in E. discriminate E.
    - rewrite (fetchDexPrice_succeeded _ _ _ _ _ _ _ _ Hd Hr) in E.
      injection E as Hq _. destruct (Hu _ _ _ _ Hg) as [H0 H1].
      apply (round_trip_on_one_quote dexName symbol r0 r1
               (next_slot st + RATE_LIMIT_DELAY) first rest H0 H1); congruence. }
  split; [exact Hp|].
  intros triggerEvent st0.
  destruct (report_update_run h symbol _ st0 Hp) as [text H].
  destruct (H triggerEvent) as (st1 & E1 & P1). eauto.
Qed.

Lemma same_quote_never_profitable_witness :
  exists first second st',
    collect Examples.flat_host DEXES ETH_USDT Examples.start =
      (Ok [first; second], st') /\
    exchange (lowestAsk (evaluate first [second])) = "uniswap" /\
    exchange (highestBid (evaluate first [second])) = "uniswap" /\
    profitable (evaluate first [second]) = false.
Proof.
  assert (Hu : unsigned_reserves Examples.flat_host).
  { intros c r0 r1 ts H. cbn in H. injection H as <- <- _. split; discriminate. }
  eassert (E1 : fetchDexPrice Examples.flat_host DEXES "uniswap" ETH_USDT Examples.start =
                (Ok (Some _), _)) by (vm_compute; reflexivity).
  eexists _, _, _. split; [vm_compute; reflexivity|].
  split; [vm_compute; reflexivity|]. split; [vm_compute; reflexivity|].
  refine (proj1 (same_quote_never_profitable Examples.flat_host DEXES "uniswap" ETH_USDT
                   Examples.start _ _ _ _ Hu E1 _ _)); vm_compute; reflexivity.
Defined.

(** X8: an opportunity is reported only on a strictly positive net profit.
    When the ask of the quote bought on has its sign bit clear, a positive
    net profit percentage implies a positive net profit. *)
Theorem alert_means_positive_net_profit (first : PriceData) (rest : list PriceData) :
  nonneg_or_nan (buyPrice (evaluate first rest)) ->
  profitable (evaluate first rest) = true ->
  gtb (profitAfterFees (evaluate first rest)) lit_0 = true.
Proof.
  intros Hb Hp. unfold profitable in Hp.
  change (profitPercentage (evaluate first rest))
    with (mul (div (profitAfterFees (evaluate first rest))
                   (buyPrice (evaluate first rest))) lit_100) in Hp.
  apply mul_100_positive in Hp. now apply (div_positive _ _ Hb).
Qed.

Lemma alert_means_positive_net_profit_witness :
  gtb (profitAfterFees (evaluate Examples.quoteA [Examples.quoteB])) lit_0 = true.
Proof.
  apply alert_means_positive_net_profit; vm_compute; reflexivity.
Defined.

(** ** Scans, swap events and start-up *)

Lemma clock_step_refl (st : State) : clock_step st st.
Proof. split; [lia|auto]. Qed.

Lemma clock_step_trans (a b c : State) :
  clock_step a b -> clock_step b c -> clock_step a c.
Proof. intros [H1 H2] [H3 H4]. split; [lia|auto]. Qed.

Lemma clock_step_same (st st' : State) :
  now st' = now st -> lastCallTime st' = lastCallTime st -> clock_step st st'.
Proof. unfold clock_step, limiter_sound. intros -> ->. split; [lia|auto]. Qed.

Lemma fetchDexPrice_clock (h : Host) (dexes : DexConfigs) (dexName : string)
    (symbol : TokenPair) (st : State) :
  exists r st',
    fetchDexPrice h dexes dexName symbol st = (Ok r, st') /\
    posts st' = posts st /\ clock_step st st'.
Proof.
  destruct (pool_read_cases h dexes dexName symbol)
    as [(e & He & _)|(d & r0 & r1 & ts & Hd & _ & _ & Hr)].
  - eexists _, _. split; [apply (fetchDexPrice_failed _ _ _ _ _ _ He)|].
    split; [reflexivity|]. unfold clock_step, limiter_sound, next_slot. cbn. lia.
  - eexists _, _. split; [apply (fetchDexPrice_succeeded _ _ _ _ _ _ _ _ Hd Hr)|].
    split; [reflexivity|].
    unfold clock_step, limiter_sound, next_slot, RATE_LIMIT_DELAY. cbn. lia.
Qed.

Lemma collect_clock (h : Host) (dexes : DexConfigs) (symbol : TokenPair) (st : State) :
  exists validResults st',
    collect h dexes symbol st = (Ok validResults, st') /\
    posts st' = posts st /\ clock_step st st'.
Proof.
  unfold collect.
  assert (H : forall names st0,
             exists results st',
               Promise_all (fun dexName => fetchDexPrice h dexes dexName symbol) names st0 =
                 (Ok results, st') /\
               posts st' = posts st0 /\ clock_step st0 st').
  { induction names as [|name names IH]; intros st0.
    - exists [], st0. repeat split; [reflexivity|apply clock_step_refl].
    - destruct (fetchDexPrice_clock h dexes name symbol st0) as (r & st1 & E1 & P1 & C1).
      destruct (IH st1) as (results & st2 & E2 & P2 & C2).
      exists (r :: results), st2. cbn [Promise_all].
      rewrite (bind_Ok _ _ _ _ _ E1), (bind_Ok _ _ _ _ _ E2).
      split; [reflexivity|]. split; [congruence|].
      now apply (clock_step_trans _ st1). }
  destruct (H (Object_keys dexes) st) as (results & st' & E & P & C).
  exists (filter_not_null results), st'.
  rewrite (bind_Ok _ _ _ _ _ E). auto.
Qed.

Lemma announce_trace (h : Host) (type : LogType) (line message : string) (st : State) :
  exists st',
    (logMessage h type line ;; logMessage h type message ;;
     sendTelegramMessage h message) st = (Ok tt, st') /\
    posts st' = (posts st ++ [post_of h message])%list /\
    now st' = now st /\ lastCallTime st' = lastCallTime st.
Proof.
  rewrite (bind_Ok _ _ _ _ _ (logMessage_line _ _ _ _)).
  rewrite (bind_Ok _ _ _ _ _ (logMessage_line _ _ _ _)).
  destruct (sendTelegramMessage_never_throws h message
              {| lastCallTime := lastCallTime st; now := now st;
                 console := ((console st ++ [log_line h (now st) type line]) ++
                             [log_line h (now st) type message])%list;
                 posts := posts st |}) as (st' & E & P & _ & N & L).
  exists st'. split; [exact E|]. auto.
Qed.

Lemma evaluateQuotes_trace (h : Host) (symbol : TokenPair)
    (validResults : list PriceData) (triggerEvent : bool) (st : State) :
  exists message st',
    evaluateQuotes h symbol validResults triggerEvent st = (Ok tt, st') /\
    posts st' = (posts st ++ [post_of h message])%list /\
    scan_message symbol triggerEvent message /\
    now st' = now st /\ lastCallTime st' = lastCallTime st.
Proof.
  destruct validResults as [|first rest]; cbn [evaluateQuotes].
  - rewrite (bind_Ok _ _ _ _ _ (logMessage_line _ _ _ _)).
    destruct (sendTelegramMessage_never_throws h ("⚠️ No data for " ++ pair_name symbol)
                {| lastCallTime := lastCallTime st; now := now st;
                   console := (console st ++
                               [log_line h (now st) error
                                  ("No data for " ++ pair_name symbol)])%list;
                   posts := posts st |}) as (st' & E & P & _ & N & L).
    eexists _, st'. split; [exact E|]. split; [exact P|].
    split; [left; reflexivity|auto].
  - unfold report. destruct (profitable (evaluate first rest)).
    + destruct (format_profitable_run h symbol (lowestAsk (evaluate first rest))
                  (highestBid (evaluate first rest)) (buyFee (evaluate first rest))
                  (sellFee (evaluate first rest)) (profitAfterFees (evaluate first rest))
                  (profitPercentage (evaluate first rest)) st) as [text E].
      rewrite (bind_Ok _ _ _ _ _ E).
      destruct (announce_trace h arb ("Opportunity: " ++ pair_name symbol)
                  ("🚨 *PROFITABLE OPPORTUNITY* 🚨" ++ text) st) as (st' & E' & P' & N & L).
      eexists _, st'. split; [exact E'|]. split; [exact P'|].
      split; [right; left; eauto|auto].
    + destruct (format_update_run h symbol (lowestAsk (evaluate first rest))
                  (highestBid (evaluate first rest)) (buyFee (evaluate first rest))
                  (sellFee (evaluate first rest)) (profit (evaluate first rest))
                  (profitAfterFees (evaluate first rest))
                  (profitPercentage (evaluate first rest)) st) as [text E].
      rewrite (bind_Ok _ _ _ _ _ (E triggerEvent)).
      destruct (announce_trace h info ("No opportunity: " ++ pair_name symbol)
                  ((if triggerEvent then "📊 *SWAP DETECTED*" else "📊 *MARKET UPDATE*")
                   ++ text) st) as (st' & E' & P' & N & L).
      eexists _, st'. split; [exact E'|]. split; [exact P'|].
      split; [right; right; eauto|auto].
Qed.

Lemma scanArbitrage_trace (h : Host) (dexes : DexConfigs) (symbol : TokenPair)
    (triggerEvent : bool) (st : State) :
  exists message st',
    scanArbitrage h dexes symbol triggerEvent st = (Ok tt, st') /\
    scanArbitrage h dexes symbol triggerEvent st =
      (validResults <- collect h dexes symbol ;;
       evaluateQuotes h symbol validResults triggerEvent) st /\
    posts st' = (posts st ++ [post_of h message])%list /\
    scan_message symbol triggerEvent message /\
    clock_step st st'.
Proof.
  destruct (collect_clock h dexes symbol st) as (validResults & st1 & Ec & P1 & C1).
  destruct (evaluateQuotes_trace h symbol validResults triggerEvent st1)
    as (message & st' & E & P & K & N & L).
  exists message, st'.
  assert (Eb : (validResults <- collect h dexes symbol ;;
                evaluateQuotes h symbol validResults triggerEvent) st = (Ok tt, st'))
    by (rewrite (bind_Ok _ _ _ _ _ Ec); exact E).
  assert (Es : scanArbitrage h dexes symbol triggerEvent st = (Ok tt, st'))
    by (unfold scanArbitrage, try_catch; rewrite Eb; reflexivity).
  split; [exact Es|]. split; [now rewrite Es, Eb|]. split; [congruence|].
  split; [exact K|].
  apply (clock_step_trans _ st1); [exact C1|now apply clock_step_same].
Qed.

(** X9: a scan never throws and its [catch] branch is never taken: it runs
    as its [try] block does, makes exactly one post, and the message posted
    is the "no data" notification, a "PROFITABLE OPPORTUNITY" message, or a
    "MARKET UPDATE" / "SWAP DETECTED" message according to the flag. *)
Theorem scan_sends_one_message (h : Host) (dexes : DexConfigs) (symbol : TokenPair)
    (triggerEvent : bool) (st : State) :
  exists message st',
    scanArbitrage h dexes symbol triggerEvent st = (Ok tt, st') /\
    scanArbitrage h dexes symbol triggerEvent st =
      (validResults <- collect h dexes symbol ;;
       evaluateQuotes h symbol validResults triggerEvent) st /\
    posts st' = (posts st ++ [post_of h message])%list /\
    scan_message symbol triggerEvent message.
Proof.
  destruct (scanArbitrage_trace h dexes symbol triggerEvent st)
    as (message & st' & E & Eb & P & K & _).
  exists message, st'. auto.
Qed.

Lemma scans_trace (h : Host) (dexes : DexConfigs) (symbols : list TokenPair)
    (st : State) :
  exists messages st',
    Promise_all (fun symbol => scanArbitrage h dexes symbol false) symbols st =
      (Ok (map (fun _ => tt) symbols), st') /\
    posts st' = (posts st ++ map (post_of h) messages)%list /\
    Forall2 (fun symbol message => scan_message symbol false message) symbols messages /\
    clock_step st st'.
Proof.
  revert st. induction symbols as [|symbol symbols IH]; intros st.
  - exists [], st. cbn. rewrite app_nil_r.
    split; [reflexivity|]. split; [reflexivity|].
    split; [constructor|apply clock_step_refl].
  - destruct (scanArbitrage_trace h dexes symbol false st)
      as (message & st1 & E1 & _ & P1 & K1 & C1).
    destruct (IH st1) as (messages & st2 & E2 & P2 & F2 & C2).
    exists (message :: messages), st2. cbn [Promise_all map].
    rewrite (bind_Ok _ _ _ _ _ E1), (bind_Ok _ _ _ _ _ E2).
    split; [reflexivity|]. split.
    + rewrite P2, P1, <- app_assoc. reflexivity.
    + split; [now constructor|now apply (clock_step_trans _ st1)].
Qed.

Lemma swapListener_trace (h : Host) (dexes : DexConfigs) (symbol : TokenPair)
    (dexName : string) (args : SwapArgs) (st : State) :
  exists message st',
    swapListener h dexes symbol dexName args st = (Ok tt, st') /\
    posts st' = (posts st ++ [post_of h message])%list /\
    scan_message symbol true message /\
    clock_step st st'.
Proof.
  unfold swapListener.
  rewrite (bind_Ok _ _ _ _ _ (logMessage_line _ _ _ _)).
  match goal with
  | |- context [scanArbitrage h dexes symbol true ?s] =>
      destruct (scanArbitrage_trace h dexes symbol true s)
        as (message & st' & E & _ & P & K & C)
  end.
  exists message, st'. split; [exact E|]. split; [exact P|]. split; [exact K|].
  destruct C as [C1 C2]. split; [exact C1|exact C2].
Qed.

Lemma listeners_trace (h : Host) (dexes : DexConfigs) (args : SwapArgs)
    (listeners : list Listener) (st : State) :
  exists messages st',
    forEach (fun l => swapListener h dexes (listener_symbol l) (listener_dexName l) args)
      listeners st = (Ok tt, st') /\
    posts st' = (posts st ++ map (post_of h) messages)%list /\
    Forall2 (fun l message => scan_message (listener_symbol l) true message)
      listeners messages /\
    clock_step st st'.
Proof.
  revert st. induction listeners as [|l listeners IH]; intros st.
  - exists [], st. cbn. rewrite app_nil_r.
    split; [reflexivity|]. split; [reflexivity|].
    split; [constructor|apply clock_step_refl].
  - destruct (swapListener_trace h dexes (listener_symbol l) (listener_dexName l) args st)
      as (message & st1 & E1 & P1 & K1 & C1).
    destruct (IH st1) as (messages & st2 & E2 & P2 & F2 & C2).
    exists (message :: messages), st2. cbn [forEach map].
    rewrite (bind_Ok _ _ _ _ _ E1), E2.
    split; [reflexivity|]. split.
    + rewrite P2, P1, <- app_assoc. reflexivity.
    + split; [now constructor|now apply (clock_step_trans _ st1)].
Qed.


Lemma setupEventListeners_length (dexes : DexConfigs) :
  List.length (setupEventListeners dexes) =
  (List.length SYMBOLS * List.length dexes)%nat.
Proof.
  unfold setupEventListeners, SYMBOLS. cbn [flat_map List.length].
  rewrite !length_app, !length_map. cbn [List.length]. lia.
Qed.

Lemma main_trace (h : Host) (dexes : DexConfigs) (st : State) :
  exists messages st',
    main h dexes st = (Ok (setupEventListeners dexes), st') /\
    posts st' =
      (posts st ++ post_of h (start_message dexes) :: map (post_of h) messages)%list /\
    Forall2 (fun symbol message => scan_message symbol false message) SYMBOLS messages /\
    clock_step st st'.
Proof.
  unfold main.
  rewrite (bind_Ok _ _ _ _ _ (logMessage_line _ _ _ _)).
  rewrite (bind_Ok _ _ _ _ _ (logMessage_line _ _ _ _)).
  rewrite (bind_Ok _ _ _ _ _ (logMessage_line _ _ _ _)).
  match goal with
  | |- context [bind (sendTelegramMessage h ?m) _ ?s] =>
      destruct (sendTelegramMessage_never_throws h m s) as (st1 & E1 & P1 & _ & N1 & L1)
  end.
  rewrite (bind_Ok _ _ _ _ _ E1).
  destruct (scans_trace h dexes SYMBOLS st1) as (messages & st2 & E2 & P2 & F2 & C2).
  rewrite (bind_Ok _ _ _ _ _ E2).
  exists messages, st2. split; [reflexivity|]. split.
  - rewrite P2, P1. cbn [posts]. rewrite <- app_assoc. reflexivity.
  - split; [exact F2|].
    apply (clock_step_trans _ st1); [|exact C2].
    apply clock_step_same; [rewrite N1|rewrite L1]; reflexivity.
Qed.

(** X11: [main], up to the registration of the listeners, never throws: it
    sends the start message first, and after it exactly one message for each
    monitored pair, each of the kinds a scan of that pair without an event
    sends, in whatever order the scans post them; it registers one Swap
    listener for each pair on each configured source. *)
Theorem main_starts_scans_and_listens (h : Host) (dexes : DexConfigs) (st : State) :
  exists messages posted st',
    main h dexes st = (Ok (setupEventListeners dexes), st') /\
    posts st' = (posts st ++ post_of h (start_message dexes) :: posted)%list /\
    Permutation posted (map (post_of h) messages) /\
    Forall2 (fun symbol message => scan_message symbol false message) SYMBOLS messages /\
    List.length (setupEventListeners dexes) =
      (List.length SYMBOLS * List.length dexes)%nat.
Proof.
  destruct (main_trace h dexes st) as (messages & st' & E & P & F & _).
  exists messages, (map (post_of h) messages), st'.
  split; [exact E|]. split; [exact P|]. split; [apply Permutation_refl|].
  split; [exact F|]. apply setupEventListeners_length.
Qed.

(** X12: time never goes back and the limiter never holds a time in the
    future: a scan, a Swap event and [main] each end no earlier than they
    start, and if the time the limiter holds is not after the clock before,
    it is not after the clock afterwards. *)
Theorem limiter_time_never_ahead (h : Host) (dexes : DexConfigs) (st : State) :
  (forall symbol triggerEvent,
     clock_step st (exec (scanArbitrage h dexes symbol triggerEvent) st)) /\
  (forall listeners target args,
     clock_step st (exec (emitSwap h dexes listeners target args) st)) /\
  clock_step st (exec (main h dexes) st).
Proof.
  split; [|split].
  - intros symbol triggerEvent.
    destruct (scanArbitrage_trace h dexes symbol triggerEvent st)
      as (message & st' & E & _ & _ & _ & C).
    unfold exec. rewrite E. exact C.
  - intros listeners target args. unfold emitSwap.
    destruct (listeners_trace h dexes args
                (filter (fun l => String.eqb (listens_on l) target) listeners) st)
      as (messages & st' & E & _ & _ & C).
    unfold exec. rewrite E. exact C.
  - destruct (main_trace h dexes st) as (messages & st' & E & _ & _ & C).
    unfold exec. rewrite E. exact C.
Qed.

(** ** Strings of the messages *)

Lemma append_assoc (a b c : string) : (a ++ b) ++ c = a ++ (b ++ c).
Proof. induction a as [|x a IH]; cbn; [reflexivity|now rewrite IH]. Qed.

Lemma length_append (a b : string) :
  String.length (a ++ b) = (String.length a + String.length b)%nat.
Proof. induction a as [|x a IH]; cbn; [reflexivity|now rewrite IH]. Qed.

Lemma append_cancel_l (a x y : string) : a ++ x = a ++ y -> x = y.
Proof. induction a as [|c a IH]; cbn; [auto|]. intros H. injection H as H. auto. Qed.

Lemma append_cancel_r (x y r : string) : x ++ r = y ++ r -> x = y.
Proof.
  revert y. induction x as [|c x IH]; intros y H.
  - destruct y as [|d y]; [reflexivity|].
    apply (f_equal String.length) in H. cbn in H. rewrite length_append in H. lia.
  - destruct y as [|d y].
    + apply (f_equal String.length) in H. cbn in H. rewrite length_append in H. lia.
    + cbn in H. injection H as -> H. f_equal. now apply IH.
Qed.

Lemma replace_first_occurrence (c : ascii) (by_ date tail : string) :
  lacks c date -> replace c by_ (date ++ String c tail) = date ++ by_ ++ tail.
Proof.
  induction date as [|a date IH]; cbn [lacks append replace].
  - intros _. now rewrite Ascii.eqb_refl.
  - intros [Ha Hd]. destruct (Ascii.eqb_spec a c) as [->|_]; [contradiction|].
    now rewrite IH.
Qed.

Lemma substring_prefix (a b : string) :
  String.substring 0 (String.length a) (a ++ b) = a.
Proof.
  induction a as [|c a IH]; cbn; [destruct b; reflexivity|now rewrite IH].
Qed.

(** X13: when the ISO form of the current time is a ten-character date with
    no ['T'] in it, a ['T'], an eight-character time and a rest, the
    timestamp of the logs and messages is the date, a space and the time;
    reading it changes nothing. *)
Theorem formatted_timestamp_is_date_space_time (h : Host) (st : State)
    (date time rest : string) :
  toISOString h (now st) = date ++ "T" ++ time ++ rest ->
  String.length date = 10%nat ->
  lacks "T" date ->
  String.length time = 8%nat ->
  getFormattedTimestamp h st = (Ok (date ++ " " ++ time), st).
Proof.
  intros Hiso Hd Hl Ht.
  unfold getFormattedTimestamp, bind, Date_now, ret. rewrite Hiso.
  change (date ++ "T" ++ time ++ rest) with (date ++ String "T" (time ++ rest)).
  rewrite (replace_first_occurrence "T" " " date (time ++ rest) Hl).
  replace (date ++ " " ++ time ++ rest) with ((date ++ " " ++ time) ++ rest)
    by (rewrite append_assoc; reflexivity).
  replace 19%nat with (String.length (date ++ " " ++ time))
    by (rewrite !length_append, Hd, Ht; reflexivity).
  now rewrite substring_prefix.
Qed.

Lemma formatted_timestamp_is_date_space_time_witness :
  getFormattedTimestamp Examples.host Examples.start =
    (Ok "2025-01-01 00:00:00", Examples.start).
Proof.
  apply (formatted_timestamp_is_date_space_time Examples.host Examples.start
           "2025-01-01" "00:00:00" ".000Z"); try reflexivity.
  cbn. repeat split; discriminate.
Defined.

(** X14: the JavaScript variants of the two formatters print the sell line
    with the ask of the sell quote where the TypeScript ones print its bid,
    and differ in nothing else: the messages of the two variants are equal
    exactly when that ask and that bid print the same to two decimals. *)
Theorem js_messages_differ_only_in_sell_price (h : Host) (symbol : TokenPair)
    (lowestAsk highestBid : PriceData)
    (buyFee sellFee profit profitAfterFees profitPercentage : number)
    (isSwap : bool) (st : State) :
  (JsVariant.formatArbitrageMessage h symbol lowestAsk highestBid buyFee sellFee
     profitAfterFees profitPercentage st =
   Scanner.formatArbitrageMessage h symbol lowestAsk highestBid buyFee sellFee
     profitAfterFees profitPercentage st <->
   toFixed2 h (ask highestBid) = toFixed2 h (bid highestBid)) /\
  (JsVariant.formatNonProfitableMessage h symbol lowestAsk highestBid buyFee sellFee
     profit profitAfterFees profitPercentage isSwap st =
   Scanner.formatNonProfitableMessage h symbol lowestAsk highestBid buyFee sellFee
     profit profitAfterFees profitPercentage isSwap st <->
   toFixed2 h (ask highestBid) = toFixed2 h (bid highestBid)).
Proof.
  unfold JsVariant.formatArbitrageMessage, Scanner.formatArbitrageMessage,
    JsVariant.formatNonProfitableMessage, Scanner.formatNonProfitableMessage,
    getFormattedTimestamp, bind, Date_now, ret.
  split; (split; [|intros ->; reflexivity]); intros H;
    apply (f_equal (fun r : Result string * State =>
                      match fst r with Ok m => m | Throw m => m end)) in H;
    cbv beta iota in H; cbn [fst] in H;
    repeat (apply append_cancel_l in H); now apply append_cancel_r in H.
Qed.
